(** * Solar Observation Dashboard: fetch cache, file catalog and aggregation

    A shallow embedding of the logic of [Frontend/src/App.tsx] and
    [Frontend/src/StatsOverTime.tsx]:

    - [JSString]: the string primitives the code calls ([split], [slice],
      [startsWith]);
    - [JSObject]: a plain JS object used as a map, with the insertion order
      that [Object.entries] exposes;
    - [Num]: JS numbers as IEEE-754 binary64 values, with [Math.max] and
      [Math.min];
    - [Format]: [formatDateTime];
    - [Stats]: [EnhancedStats], [DataSummary] and [StatsOverTime];
    - [Dashboard]: the [App] component as a transition system whose steps are
      the synchronous prefix of each async function and the resumption of
      each awaited external call;
    - [Samples]: concrete records, file names and event traces.

    The definitions come first, the facts about them after. *)

From Stdlib Require Import Bool Arith List Ascii String ZArith Lia.
From Stdlib Require Import Permutation.
From Stdlib Require Import Floats.SpecFloat.
Import ListNotations.

Local Open Scope list_scope.
Local Open Scope string_scope.

(* ================================================================== *)
(** ** JS string primitives *)
(* ================================================================== *)

(** Strings are sequences of code units; the file names and keys of the
    dashboard are ASCII, so a code unit is an [ascii]. *)
Module JSString.

(** [s.split(sep)] for a one-character separator.  The result is never
    empty: [''.split('.')] is [['']]. *)
Fixpoint split (sep : ascii) (s : string) : list string :=
  match s with
  | EmptyString => [EmptyString]
  | String c s' =>
      if Ascii.eqb c sep then EmptyString :: split sep s'
      else match split sep s' with
           | seg :: segs => String c seg :: segs
           | [] => [String c EmptyString]
           end
  end.

(** [s.slice(from, to)] for [0 <= from <= to]; indices beyond the end are
    clamped to the length. *)
Fixpoint drop (n : nat) (s : string) : string :=
  match n, s with
  | O, _ => s
  | S _, EmptyString => EmptyString
  | S n', String _ s' => drop n' s'
  end.

Fixpoint take (n : nat) (s : string) : string :=
  match n, s with
  | O, _ => EmptyString
  | S _, EmptyString => EmptyString
  | S n', String c s' => String c (take n' s')
  end.

Definition slice (from to : nat) (s : string) : string :=
  take (to - from) (drop from s).

(** [s.startsWith(p)]. *)
Fixpoint startsWith (p s : string) : bool :=
  match p, s with
  | EmptyString, _ => true
  | String _ _, EmptyString => false
  | String a p', String b s' => Ascii.eqb b a && startsWith p' s'
  end.

(** Does the code unit [c] occur in [s]? *)
Fixpoint occurs (c : ascii) (s : string) : bool :=
  match s with
  | EmptyString => false
  | String d s' => Ascii.eqb d c || occurs c s'
  end.

Definition is_digit (c : ascii) : bool :=
  let n := nat_of_ascii c in Nat.leb 48 n && Nat.leb n 57.

Fixpoint all_digits (s : string) : bool :=
  match s with
  | EmptyString => true
  | String c s' => is_digit c && all_digits s'
  end.

(** The text before the first [c] (the whole string when there is none). *)
Fixpoint before (c : ascii) (s : string) : string :=
  match s with
  | EmptyString => EmptyString
  | String d s' => if Ascii.eqb d c then EmptyString else String d (before c s')
  end.

End JSString.

(* ================================================================== *)
(** ** formatDateTime *)
(* ================================================================== *)

Module Format.
Import JSString.

(** [xs[i]] on an array: [None] is [undefined]. *)
Definition index {A} (xs : list A) (i : nat) : option A := nth_error xs i.

(** A method call on [undefined] throws a [TypeError]; [None] is that
    exception escaping [formatDateTime]. *)
Definition bind {A B} (x : option A) (f : A -> option B) : option B :=
  match x with
  | Some a => f a
  | None => None
  end.

Notation "x <- e ;; k" := (bind e (fun x => k))
  (at level 61, e at next level, right associativity).

Definition formatDateTime (filename : string) : option string :=
  dotField <- index (split "." filename) 1 ;;
  datePart <- index (split "_" dotField) 0 ;;
  uscoreField <- index (split "_" filename) 1 ;;
  let timePart := slice 0 4 uscoreField in
  let year := slice 0 4 datePart in
  let month := slice 4 6 datePart in
  let day := slice 6 8 datePart in
  let hours := slice 0 2 timePart in
  let minutes := slice 2 4 timePart in
  Some (day ++ "/" ++ month ++ "/" ++ year ++ " " ++ hours ++ ":" ++ minutes).

(** The layout [<INSTR>.<YYYYMMDD>_<HHMM...>.<rest>]: an instrument code
    free of the two delimiters, eight date digits, an underscore, four time
    digits followed by more of the time field, a dot and the rest. *)
Record layout := {
  instr : string;
  yyyy : string;
  mm : string;
  dd : string;
  hh : string;
  mi : string;
  more : string;
  rest : string
}.

Definition digits_of_width (n : nat) (s : string) : bool :=
  all_digits s && Nat.eqb (String.length s) n.

Definition well_formed (l : layout) : bool :=
  negb (occurs "." (instr l)) && negb (occurs "_" (instr l)) &&
  digits_of_width 4 (yyyy l) && digits_of_width 2 (mm l) &&
  digits_of_width 2 (dd l) && digits_of_width 2 (hh l) &&
  digits_of_width 2 (mi l).

Definition fileName (l : layout) : string :=
  instr l ++ "." ++ yyyy l ++ mm l ++ dd l ++ "_" ++
  hh l ++ mi l ++ more l ++ "." ++ rest l.

Definition expected (l : layout) : string :=
  dd l ++ "/" ++ mm l ++ "/" ++ yyyy l ++ " " ++ hh l ++ ":" ++ mi l.

End Format.

(* ================================================================== *)
(** ** Plain objects used as maps *)
(* ================================================================== *)

(** [fitsData] and [files] are plain objects.  Own string keys that are not
    array indices are enumerated in insertion order, and the keys of
    [fitsData] all contain a ["/"], so [Object.entries] lists them in the
    order they were first stored; the same holds for the lookup, which never
    reaches [Object.prototype] for such a key.  An association list with
    first-match lookup and in-place update has exactly that behaviour. *)
Module JSObject.

Definition obj (V : Type) : Type := list (string * V).

Definition empty {V : Type} : obj V := [].

(** [o[k]]; [None] is [undefined]. *)
Fixpoint get {V : Type} (o : obj V) (k : string) : option V :=
  match o with
  | [] => None
  | (k', v) :: o' => if String.eqb k' k then Some v else get o' k
  end.

(** [{ ...o, [k]: v }]: an existing key keeps its place and takes the new
    value, a new key goes last. *)
Fixpoint set {V : Type} (o : obj V) (k : string) (v : V) : obj V :=
  match o with
  | [] => [(k, v)]
  | (k', v') :: o' =>
      if String.eqb k' k then (k', v) :: o' else (k', v') :: set o' k v
  end.

(** [Object.entries(o)]. *)
Definition entries {V : Type} (o : obj V) : list (string * V) := o.

Definition keys {V : Type} (o : obj V) : list string := map fst o.

(** The property names a plain object inherits from [Object.prototype]
    (ECMA-262, 20.1.3 and B.2.2).  On an object with no own property of that
    name, [o[k]] is the inherited function or object, not [undefined]. *)
Definition inheritedNames : list string :=
  [ "constructor"; "hasOwnProperty"; "isPrototypeOf"; "propertyIsEnumerable";
    "toLocaleString"; "toString"; "valueOf"; "__proto__";
    "__defineGetter__"; "__defineSetter__";
    "__lookupGetter__"; "__lookupSetter__" ].

Definition isInherited (k : string) : bool :=
  existsb (String.eqb k) inheritedNames.

End JSObject.

(* ================================================================== *)
(** ** Numbers *)
(* ================================================================== *)

(** A JS number is an IEEE-754 binary64 value; [spec_float] with precision
    53 and maximal exponent 1024 is its specification, rounding to nearest,
    ties to even. *)
Module Num.

Definition prec : Z := 53.
Definition emax : Z := 1024.

Definition number : Type := spec_float.

Definition add : number -> number -> number := SFadd prec emax.
Definition div : number -> number -> number := SFdiv prec emax.
Definition ltb : number -> number -> bool := SFltb.
Definition leb : number -> number -> bool := SFleb.

(** The number denoted by an integer literal, and by an array length. *)
Definition of_Z (z : Z) : number := binary_normalize prec emax z 0 false.
Definition of_nat (n : nat) : number := of_Z (Z.of_nat n).

Definition NaN : number := S754_nan.
Definition Infinity : number := S754_infinity false.
Definition neg_Infinity : number := S754_infinity true.
Definition pos_zero : number := S754_zero false.
Definition neg_zero : number := S754_zero true.

Definition is_nan (x : number) : bool :=
  match x with S754_nan => true | _ => false end.

Definition is_pos_zero (x : number) : bool :=
  match x with S754_zero false => true | _ => false end.

Definition is_neg_zero (x : number) : bool :=
  match x with S754_zero true => true | _ => false end.

(** [Math.max(...xs)] (ECMA-262, 21.3.2.24): start from [-Infinity]; a
    [NaN] argument makes the result [NaN]; [+0] beats [-0]; otherwise the
    larger value is kept. *)
Fixpoint max_from (highest : number) (xs : list number) : number :=
  match xs with
  | [] => highest
  | x :: xs' =>
      if is_nan x then NaN
      else
        let highest1 :=
          if is_pos_zero x && is_neg_zero highest then pos_zero else highest in
        let highest2 := if ltb highest1 x then x else highest1 in
        max_from highest2 xs'
  end.

Definition Math_max (xs : list number) : number := max_from neg_Infinity xs.

(** [Math.min(...xs)] (ECMA-262, 21.3.2.25), the mirror image. *)
Fixpoint min_from (lowest : number) (xs : list number) : number :=
  match xs with
  | [] => lowest
  | x :: xs' =>
      if is_nan x then NaN
      else
        let lowest1 :=
          if is_neg_zero x && is_pos_zero lowest then neg_zero else lowest in
        let lowest2 := if ltb x lowest1 then x else lowest1 in
        min_from lowest2 xs'
  end.

Definition Math_min (xs : list number) : number := min_from Infinity xs.

(** The sum of a list of numbers, added up from the left starting at 0. *)
Definition sum (xs : list number) : number := fold_left add xs (of_Z 0).

(** [m] is a greatest element of [xs]: it occurs in [xs] and no element
    compares above it. *)
Definition maximum_of (xs : list number) (m : number) : Prop :=
  In m xs /\ forall x, In x xs -> leb x m = true.

Definition minimum_of (xs : list number) (m : number) : Prop :=
  In m xs /\ forall x, In x xs -> leb m x = true.

(** JSON has no literal for [NaN], so a decoded number never is one. *)
Definition no_nan (xs : list number) : Prop :=
  Forall (fun x => is_nan x = false) xs.

(** Case analysis on the comparisons of exponents and mantissas. *)
Ltac orders :=
  repeat match goal with
  | |- context [Pos.compare_cont Eq ?a ?b] =>
      change (Pos.compare_cont Eq a b) with (Pos.compare a b)
  | H : context [Pos.compare_cont Eq ?a ?b] |- _ =>
      change (Pos.compare_cont Eq a b) with (Pos.compare a b) in H
  end;
  repeat match goal with
  | H : context [Z.compare ?a ?b] |- _ =>
      destruct (Z.compare_spec a b); simpl in H; try discriminate H
  | H : context [Pos.compare ?a ?b] |- _ =>
      destruct (Pos.compare_spec a b); simpl in H; try discriminate H
  end;
  repeat match goal with
  | |- context [Z.compare ?a ?b] =>
      destruct (Z.compare_spec a b); simpl
  | |- context [Pos.compare ?a ?b] =>
      destruct (Pos.compare_spec a b); simpl
  end;
  subst; try reflexivity; try discriminate; try lia.

End Num.

(* ================================================================== *)
(** ** StatsOverTime.tsx *)
(* ================================================================== *)

Module FITS.

(** [interface FITSData].  The payload is whatever the data service sent,
    so it may carry fields the interface does not declare;
    [StatsOverTime] reads one such field, [observation_date], which is
    [None] ([undefined]) for a payload that has exactly the declared
    fields. *)
Record Stats := {
  min : Num.number;
  max : Num.number;
  mean : Num.number;
  stdev : Num.number
}.

Record FITSData := {
  stats : Stats;
  histogram : string;
  image : string;
  observation_date : option string
}.

End FITS.

Module Stats.
Import JSString JSObject.

(** One object of [chartData]. *)
Module Point.
Record t := {
  date : string;
  min : Num.number;
  max : Num.number;
  mean : Num.number;
  stdev : Num.number
}.
End Point.

(** The values [DataSummary] displays (before [toFixed(2)]). *)
Record Summary := {
  totalObservations : nat;
  averageIntensity : Num.number;
  maxIntensity : Num.number;
  minIntensity : Num.number
}.

Section WithLocale.

(** [new Date(s).toLocaleDateString()] for a string [s]: both the parsing
    and the rendering depend on the engine and its locale. *)
Variable localeDateString : string -> string.

(** [new Date(item.observation_date).toLocaleDateString()];
    [new Date(undefined)] is an invalid date, rendered ["Invalid Date"]. *)
Definition chartDate (observation_date : option string) : string :=
  match observation_date with
  | None => "Invalid Date"
  | Some s => localeDateString s
  end.

Definition chartPoint (item : FITS.FITSData) : Point.t :=
  {| Point.date := chartDate (FITS.observation_date item);
     Point.min := FITS.min (FITS.stats item);
     Point.max := FITS.max (FITS.stats item);
     Point.mean := FITS.mean (FITS.stats item);
     Point.stdev := FITS.stdev (FITS.stats item) |}.

(** [chartData] of [StatsOverTime]. *)
Definition StatsOverTime (data : list FITS.FITSData) : list Point.t :=
  map chartPoint data.

End WithLocale.

(** [data.reduce((acc, curr) => acc + curr.stats.mean, 0)]. *)
Definition sumOfMeans (data : list FITS.FITSData) : Num.number :=
  fold_left (fun acc curr => Num.add acc (FITS.mean (FITS.stats curr)))
            data (Num.of_Z 0).

Definition DataSummary (data : list FITS.FITSData) : Summary :=
  let totalObservations := List.length data in
  {| totalObservations := totalObservations;
     averageIntensity := Num.div (sumOfMeans data) (Num.of_nat totalObservations);
     maxIntensity :=
       Num.Math_max (map (fun item => FITS.max (FITS.stats item)) data);
     minIntensity :=
       Num.Math_min (map (fun item => FITS.min (FITS.stats item)) data) |}.

(** [dataArray] of [EnhancedStats]. *)
Definition dataArray (selectedYear : string) (fitsData : obj FITS.FITSData)
  : list FITS.FITSData :=
  map snd (filter (fun entry => startsWith selectedYear (fst entry))
                  (entries fitsData)).

(** What [EnhancedStats] renders: [None] is [null], otherwise the summary
    and the chart series. *)
Definition EnhancedStats (localeDateString : string -> string)
    (selectedYear : string) (fitsData : obj FITS.FITSData)
  : option (Summary * list Point.t) :=
  let data := dataArray selectedYear fitsData in
  if Nat.eqb (List.length data) 0 then None
  else Some (DataSummary data, StatsOverTime localeDateString data).

Definition maxes (data : list FITS.FITSData) : list Num.number :=
  map (fun item => FITS.max (FITS.stats item)) data.

Definition mins (data : list FITS.FITSData) : list Num.number :=
  map (fun item => FITS.min (FITS.stats item)) data.

Definition means (data : list FITS.FITSData) : list Num.number :=
  map (fun item => FITS.mean (FITS.stats item)) data.

(** The summary the aggregation is specified to give for the included
    records [data]: their number, the sum of their means divided by that
    number, the greatest of their maxima and the least of their minima. *)
Definition summary_spec (data : list FITS.FITSData) (s : Summary) : Prop :=
  totalObservations s = List.length data /\
  averageIntensity s
    = Num.div (Num.sum (means data)) (Num.of_nat (List.length data)) /\
  Num.maximum_of (maxes data) (maxIntensity s) /\
  Num.minimum_of (mins data) (minIntensity s).

(** Point [p] carries the four statistics of [item] and the date label of
    its [observation_date]. *)
Definition pointCarries (localeDateString : string -> string)
    (item : FITS.FITSData) (p : Point.t) : Prop :=
  Point.min p = FITS.min (FITS.stats item) /\
  Point.max p = FITS.max (FITS.stats item) /\
  Point.mean p = FITS.mean (FITS.stats item) /\
  Point.stdev p = FITS.stdev (FITS.stats item) /\
  Point.date p = chartDate localeDateString (FITS.observation_date item).

(** The year component of a cache key [year/filename]: the text before the
    first ["/"] (a year is a path segment of the data service, so it has no
    ["/"] of its own). *)
Definition yearOf (key : string) : string := before "/" key.

(** The entries the filtering rule of the aggregation asks for: those
    whose key has [selectedYear] as its year component. *)
Definition entriesOfYear (selectedYear : string) (fitsData : obj FITS.FITSData)
  : list (string * FITS.FITSData) :=
  filter (fun entry => String.eqb (yearOf (fst entry)) selectedYear)
         (entries fitsData).

End Stats.

(* ================================================================== *)
(** ** App.tsx: the App component *)
(* ================================================================== *)

(** The component is single-threaded and event-driven.  Its state is the
    React state of [App] together with the external calls that were
    dispatched and those still awaited.  One step is either a user action,
    which runs an event handler up to its first [await], or the settling of
    an awaited call, which runs the rest of that async function.  A render
    follows every step, so a handler reads the state the step before it left
    behind.  The earlier copy of the file has the same [fetchFITSData] and
    calls it straight from the [onClick] of a row, where this one goes
    through [toggleItem]. *)
Module Dashboard.
Import JSString JSObject.

(** The external calls handed to [fetch]. *)
Inductive Request :=
| GetYears
| GetFiles (year : string)
| GetFitsData (year filename : string).

Definition url (r : Request) : string :=
  match r with
  | GetYears => "http://localhost:5000/api/years"
  | GetFiles year => "http://localhost:5000/api/files/" ++ year
  | GetFitsData year filename =>
      "http://localhost:5000/api/fits-data/" ++ year ++ "/" ++ filename
  end.

(** The decoded body of a listing endpoint: the array of names, or a JSON
    object that is not an array, such as the [{ error: ... }] that the data
    service sends with an error status ([error] is its [error] field, when
    it is a string). *)
Inductive Listing :=
| Names (names : list string)
| NotAList (error : option string).

(** How an awaited call settles, as far as the code can tell the cases
    apart.  [Threw] is any exception inside the [try] block: [fetch]
    rejecting (transport failure), [response.json()] rejecting (a body that
    is not JSON), or a property read on a [null] body.  A 2xx reply of the
    FITS endpoint carries a [FITSData]; any other reply of that endpoint
    carries a body whose [error] field is read. *)
Inductive Outcome :=
| Threw
| ListingReply (ok : bool) (data : Listing)
| FitsReply (data : FITS.FITSData)
| FitsError (error : option string).

Record AppState := {
  years : Listing;
  selectedYear : option string;
  files : obj Listing;
  fitsData : obj FITS.FITSData;
  loading : bool;
  error : option string;
  (** every external call dispatched so far, oldest first; the position of
      a call identifies its promise *)
  calls : list Request;
  (** the promises not settled yet *)
  awaiting : list nat
}.

(** [if (x)] on a value that is a string, [null] or [undefined]. *)
Definition truthy (x : option string) : bool :=
  match x with
  | Some s => negb (String.eqb s EmptyString)
  | None => false
  end.

Definition setYears (data : Listing) (s : AppState) : AppState :=
  {| years := data; selectedYear := selectedYear s; files := files s;
     fitsData := fitsData s; loading := loading s; error := error s;
     calls := calls s; awaiting := awaiting s |}.

Definition writeSelectedYear (y : option string) (s : AppState) : AppState :=
  {| years := years s; selectedYear := y; files := files s;
     fitsData := fitsData s; loading := loading s; error := error s;
     calls := calls s; awaiting := awaiting s |}.

Definition setFiles (update : obj Listing -> obj Listing) (s : AppState)
  : AppState :=
  {| years := years s; selectedYear := selectedYear s;
     files := update (files s);
     fitsData := fitsData s; loading := loading s; error := error s;
     calls := calls s; awaiting := awaiting s |}.

Definition setFitsData
    (update : obj FITS.FITSData -> obj FITS.FITSData) (s : AppState)
  : AppState :=
  {| years := years s; selectedYear := selectedYear s; files := files s;
     fitsData := update (fitsData s);
     loading := loading s; error := error s;
     calls := calls s; awaiting := awaiting s |}.

Definition setLoading (b : bool) (s : AppState) : AppState :=
  {| years := years s; selectedYear := selectedYear s; files := files s;
     fitsData := fitsData s; loading := b; error := error s;
     calls := calls s; awaiting := awaiting s |}.

Definition setError (e : option string) (s : AppState) : AppState :=
  {| years := years s; selectedYear := selectedYear s; files := files s;
     fitsData := fitsData s; loading := loading s; error := e;
     calls := calls s; awaiting := awaiting s |}.

(** [await fetch(url r)]: the call goes out and the function suspends. *)
Definition dispatch (r : Request) (s : AppState) : AppState :=
  {| years := years s; selectedYear := selectedYear s; files := files s;
     fitsData := fitsData s; loading := loading s; error := error s;
     calls := (calls s ++ [r])%list;
     awaiting := (awaiting s ++ [List.length (calls s)])%list |}.

Definition settled (id : nat) (s : AppState) : AppState :=
  {| years := years s; selectedYear := selectedYear s; files := files s;
     fitsData := fitsData s; loading := loading s; error := error s;
     calls := calls s;
     awaiting := filter (fun i => negb (Nat.eqb i id)) (awaiting s) |}.

(** *** Rendering *)

Inductive RowBody :=
| LoadingText
| Display (data : FITS.FITSData)
| Blank.

Record Row := {
  rowFilename : string;
  observationTime : string;
  body : RowBody
}.

(** The [div] of one year: its class ([block] or [hidden]), the props of
    the [EnhancedStats] element when there is one, and the rows of the
    [Accordion]. *)
Record Panel := {
  panelYear : string;
  visible : bool;
  enhancedStats : option (string * obj FITS.FITSData);
  rows : list Row
}.

Inductive View :=
| ErrorView (message : string)
| DashboardView (panels : list Panel)
| Crashed.

(** [xs.map(f)] for an [f] that may throw. *)
Fixpoint traverse {A B : Type} (f : A -> option B) (xs : list A)
  : option (list B) :=
  match xs with
  | [] => Some []
  | x :: xs' =>
      match f x with
      | None => None
      | Some y =>
          match traverse f xs' with
          | None => None
          | Some ys => Some (y :: ys)
          end
      end
  end.

Definition key (year filename : string) : string :=
  year ++ "/" ++ filename.

Definition renderRow (s : AppState) (year filename : string) : option Row :=
  match Format.formatDateTime filename with
  | None => None
  | Some time =>
      Some {| rowFilename := filename;
              observationTime := time;
              body := if loading s then LoadingText
                      else match get (fitsData s) (key year filename) with
                           | Some data => Display data
                           | None => Blank
                           end |}
  end.

(** [files?.map(...)] in [Accordion], where [files] is [files[year]] of
    [App]: nothing for [undefined], a [TypeError] for a value that is not an
    array.  A year that has no list yet and is named like a property of
    [Object.prototype] reads the inherited value, which has no [map]. *)
Definition Accordion (s : AppState) (year : string) : option (list Row) :=
  match get (files s) year with
  | None => if isInherited year then None else Some []
  | Some (Names names) => traverse (renderRow s year) names
  | Some (NotAList _) => None
  end.

(** [selectedYear === y]. *)
Definition isSelected (s : AppState) (y : string) : bool :=
  match selectedYear s with
  | Some y0 => String.eqb y0 y
  | None => false
  end.

Definition renderYear (s : AppState) (year : string) : option Panel :=
  match Accordion s year with
  | None => None
  | Some rs =>
      Some {| panelYear := year;
              visible := isSelected s year;
              enhancedStats :=
                match selectedYear s with
                | Some y => if truthy (Some y) then Some (y, fitsData s)
                            else None
                | None => None
                end;
              rows := rs |}
  end.

(** The render function of [App].  An exception while rendering unmounts
    the whole tree. *)
Definition renderDashboard (s : AppState) : View :=
  match years s with
  | Names ys =>
      match traverse (renderYear s) ys with
      | Some panels => DashboardView panels
      | None => Crashed
      end
  | NotAList _ => Crashed
  end.

Definition render (s : AppState) : View :=
  match error s with
  | Some message =>
      if truthy (Some message) then ErrorView message else renderDashboard s
  | None => renderDashboard s
  end.

Definition crashed (s : AppState) : bool :=
  match render s with Crashed => true | _ => false end.

(** *** The async functions *)

Definition fetchFilesForYear (year : string) (s : AppState) : AppState :=
  dispatch (GetFiles year) s.

(** [setSelectedYear(y)] followed by the effect on [[selectedYear]]: the
    effect runs after the render, when the value changed, and calls
    [fetchFilesForYear] for a truthy year. *)
Definition setSelectedYear (y : string) (s : AppState) : AppState :=
  if isSelected s y then s
  else
    let s1 := writeSelectedYear (Some y) s in
    if truthy (Some y) && negb (crashed s1) then fetchFilesForYear y s1
    else s1.

(** [fetchFITSData] up to its [await]: nothing happens when [fitsData[key]]
    is truthy, which a stored record, being an object, always is; otherwise
    [loading] is set and the call goes out. *)
Definition fetchFITSData (year filename : string) (s : AppState) : AppState :=
  match get (fitsData s) (key year filename) with
  | Some _ => s
  | None => dispatch (GetFitsData year filename) (setLoading true s)
  end.

(** [toggleItem] of [Accordion] (the open/closed flag is local to the
    [Accordion] and read by nothing else). *)
Definition toggleItem (year filename : string) (s : AppState) : AppState :=
  match get (fitsData s) (key year filename) with
  | Some _ => s
  | None => fetchFITSData year filename s
  end.

(** The rest of an async function once its call has settled; [None] when
    the outcome is not one the endpoint can produce. *)
Definition resume (r : Request) (o : Outcome) (s : AppState)
  : option AppState :=
  match r, o with
  | GetYears, ListingReply _ data =>
      let s1 := setYears data s in
      Some match data with
           | Names (first :: _) => setSelectedYear first s1
           | _ => s1
           end
  | GetYears, Threw => Some (setError (Some "Failed to fetch years") s)
  | GetFiles year, ListingReply _ data =>
      Some (setFiles (fun prev => set prev year data) s)
  | GetFiles year, Threw =>
      Some (setError (Some ("Failed to fetch files for year " ++ year)) s)
  | GetFitsData year filename, FitsReply data =>
      Some (setLoading false
              (setFitsData (fun prev => set prev (key year filename) data) s))
  | GetFitsData year filename, FitsError e =>
      Some (setLoading false (setError e s))
  | GetFitsData year filename, Threw =>
      Some (setLoading false (setError (Some "Failed to fetch FITS data") s))
  | _, _ => None
  end.

(** *** Steps *)

Inductive Event :=
| ClickYear (year : string)
| ToggleItem (year filename : string)
| Settle (id : nat) (o : Outcome).

Definition hasYearButton (s : AppState) (year : string) : bool :=
  match render s with
  | DashboardView panels =>
      existsb (fun p => String.eqb (panelYear p) year) panels
  | _ => false
  end.

Definition hasRow (s : AppState) (year filename : string) : bool :=
  match render s with
  | DashboardView panels =>
      existsb (fun p => visible p && String.eqb (panelYear p) year &&
                        existsb (fun r => String.eqb (rowFilename r) filename)
                                (rows p))
              panels
  | _ => false
  end.

Definition isAwaited (id : nat) (s : AppState) : bool :=
  existsb (Nat.eqb id) (awaiting s).

(** A user action needs its button on the screen; a promise settles once;
    after a crash the tree is unmounted and state updates are dropped. *)
Definition step (e : Event) (s : AppState) : AppState :=
  if crashed s then s
  else
    match e with
    | ClickYear year =>
        if hasYearButton s year then setSelectedYear year s else s
    | ToggleItem year filename =>
        if hasRow s year filename then toggleItem year filename s else s
    | Settle id o =>
        if isAwaited id s then
          match nth_error (calls s) id with
          | Some r =>
              match resume r o (settled id s) with
              | Some s' => s'
              | None => s
              end
          | None => s
          end
        else s
    end.

Definition run (evs : list Event) (s : AppState) : AppState :=
  fold_left (fun st e => step e st) evs s.

(** The state after the first render: [loading] starts [true], and the
    mount effect has called [fetchYears]. *)
Definition initial : AppState :=
  {| years := Names []; selectedYear := None; files := empty;
     fitsData := empty; loading := true; error := None;
     calls := [GetYears]; awaiting := [0] |}.

(** Call [r] asks for the FITS data of key [k]. *)
Definition isFitsCall (k : string) (r : Request) : bool :=
  match r with
  | GetFitsData year filename => String.eqb (key year filename) k
  | _ => false
  end.

(** The number of external calls dispatched for the FITS data of a key. *)
Definition fitsCalls (k : string) (s : AppState) : nat :=
  List.length (filter (isFitsCall k) (calls s)).

(** Event [e], taken in state [s], is the successful completion of a fetch
    for key [k]: an awaited call for the FITS data of [k] settles with a
    2xx reply. *)
Definition completesOk (k : string) (e : Event) (s : AppState) : bool :=
  match e with
  | Settle id (FitsReply _) =>
      negb (crashed s) && isAwaited id s &&
      match nth_error (calls s) id with
      | Some r => isFitsCall k r
      | None => false
      end
  | _ => false
  end.

(** Some event of the trace [evs], started in [s], is such a completion. *)
Fixpoint fetchedOk (k : string) (evs : list Event) (s : AppState) : bool :=
  match evs with
  | [] => false
  | e :: evs' => completesOk k e s || fetchedOk k evs' (step e s)
  end.

(** A fetch for key [k] is in flight. *)
Definition inFlight (k : string) (s : AppState) : bool :=
  existsb (fun id => match nth_error (calls s) id with
                     | Some r => isFitsCall k r
                     | None => false
                     end)
          (awaiting s).

End Dashboard.

(* ================================================================== *)
(** ** Sample data *)
(* ================================================================== *)

Module Samples.
Import JSObject Dashboard.

(** A payload with exactly the fields of [interface FITSData]. *)
Definition record (lo hi avg dev : Z) : FITS.FITSData :=
  {| FITS.stats := {| FITS.min := Num.of_Z lo; FITS.max := Num.of_Z hi;
                      FITS.mean := Num.of_Z avg; FITS.stdev := Num.of_Z dev |};
     FITS.histogram := "aGlzdA=="; FITS.image := "aW1n";
     FITS.observation_date := None |}.

Definition recordA : FITS.FITSData := record 0 10 1 2.
Definition recordB : FITS.FITSData := record 1 20 2 3.
Definition recordC : FITS.FITSData := record 2 5 6 1.

Definition fileA : string := "AIA.20221023_084600.0094.synoptic.fits".
Definition fileB : string := "AIA.20221024_091200.0094.synoptic.fits".

(** The year list and the file list of 2022 have arrived. *)
Definition browsing2022 : list Event :=
  [ Settle 0 (ListingReply true (Names ["2022"; "2023"]));
    Settle 1 (ListingReply true (Names [fileA; fileB])) ].

(** The user expands [fileA] and [fileB]; the first fetch succeeds, the
    second is answered with an error status and [{ error: ... }]. *)
Definition oneFails : list Event :=
  (browsing2022 ++
   [ ToggleItem "2022" fileA;
     ToggleItem "2022" fileB;
     Settle 2 (FitsReply recordA);
     Settle 3 (FitsError (Some "File not found")) ])%list.

(** The file list of 2022 is answered with an error status and a JSON
    error object. *)
Definition fileListFails : list Event :=
  [ Settle 0 (ListingReply true (Names ["2022"; "2023"]));
    Settle 1 (ListingReply false (NotAList (Some "Year not found"))) ].

(** The data service lists the years 2022 and 20221; the user opens 20221,
    expands its one file, the record arrives, and the user goes back to
    2022. *)
Definition visitsLongerYear : list Event :=
  [ Settle 0 (ListingReply true (Names ["2022"; "20221"]));
    ClickYear "20221";
    Settle 2 (ListingReply true (Names [fileA]));
    ToggleItem "20221" fileA;
    Settle 3 (FitsReply recordA);
    ClickYear "2022" ].

(** A cache holding one record of the year ["20221"]. *)
Definition otherYearCache : obj FITS.FITSData :=
  set empty (key "20221" fileA) recordA.

End Samples.

(* ================================================================== *)
(** ** App.tsx: the open/closed flags of an Accordion *)
(* ================================================================== *)

(** [openItems] is state of one [Accordion], keyed by file name.  A row is
    rendered only when [formatDateTime] accepts its name, so the name has a
    dot and is no property of [Object.prototype]. *)
Module OpenItems.
Import JSObject.

(** The truthiness of [openItems[filename]]; [undefined] is falsy. *)
Definition isOpen (openItems : obj bool) (filename : string) : bool :=
  match get openItems filename with
  | Some flag => flag
  | None => false
  end.

(** [setOpenItems(prev => ({ ...prev, [filename]: !prev[filename] }))]. *)
Definition toggleOpen (filename : string) (prev : obj bool) : obj bool :=
  set prev filename (negb (isOpen prev filename)).

End OpenItems.

(* ================================================================== *)
(** ** Kinds of events and comparison of numbers *)
(* ================================================================== *)

Module Kinds.
Import Dashboard.

(** The event runs a [catch] branch or the [else] branch of
    [fetchFITSData]: the places that call [setError]. *)
Definition isFailure (e : Event) : bool :=
  match e with
  | Settle _ Threw => true
  | Settle _ (FitsError _) => true
  | _ => false
  end.

(** The awaited call [id] of state [s] is a call for FITS data. *)
Definition awaitsFits (s : AppState) (id : nat) (year filename : string)
  : Prop :=
  isAwaited id s = true /\
  nth_error (calls s) id = Some (GetFitsData year filename).

(** [x] and [y] compare equal ([x <= y] and [y <= x]); [+0] and [-0] do. *)
Definition sameNumber (x y : Num.number) : Prop :=
  Num.leb x y = true /\ Num.leb y x = true.

End Kinds.

(* ================================================================== *)
(** ** Facts about the string primitives *)
(* ================================================================== *)

Module JSStringFacts.
Import JSString.

Lemma split_nonempty (c : ascii) (s : string) : split c s <> [].
Proof.
  induction s as [|d s IH]; simpl; [discriminate|].
  destruct (Ascii.eqb d c); [discriminate|].
  destruct (split c s); [contradiction|discriminate].
Qed.

Lemma split_before (c : ascii) (s : string) :
  exists segs, split c s = before c s :: segs.
Proof.
  induction s as [|d s [segs IH]]; simpl.
  - now exists [].
  - destruct (Ascii.eqb d c).
    + now exists (split c s).
    + rewrite IH. now exists segs.
Qed.

(** Splitting at a separator that does not occur in the first part. *)
Lemma split_at_first (c : ascii) (a b : string) :
  occurs c a = false ->
  split c (a ++ String c b) = a :: split c b.
Proof.
  induction a as [|d a IH]; simpl; intros H.
  - now rewrite Ascii.eqb_refl.
  - apply orb_false_iff in H as [Hd Ha].
    rewrite Hd, (IH Ha). reflexivity.
Qed.

Lemma before_app (c : ascii) (a b : string) :
  occurs c a = false ->
  before c (a ++ b) = a ++ before c b.
Proof.
  induction a as [|d a IH]; simpl; intros H; [reflexivity|].
  apply orb_false_iff in H as [Hd Ha].
  now rewrite Hd, (IH Ha).
Qed.

Lemma before_at_first (c : ascii) (a b : string) :
  occurs c a = false ->
  before c (a ++ String c b) = a.
Proof.
  induction a as [|d a IH]; simpl; intros H.
  - now rewrite Ascii.eqb_refl.
  - apply orb_false_iff in H as [Hd Ha].
    now rewrite Hd, (IH Ha).
Qed.

Lemma occurs_app (c : ascii) (a b : string) :
  occurs c (a ++ b) = occurs c a || occurs c b.
Proof.
  induction a as [|d a IH]; simpl; [reflexivity|].
  now rewrite IH, orb_assoc.
Qed.

Lemma digit_not (c d : ascii) :
  is_digit d = true -> is_digit c = false -> Ascii.eqb d c = false.
Proof.
  intros Hd Hc. destruct (Ascii.eqb_spec d c); [congruence|reflexivity].
Qed.

Lemma all_digits_occurs (c : ascii) (s : string) :
  is_digit c = false -> all_digits s = true -> occurs c s = false.
Proof.
  intros Hc. induction s as [|d s IH]; simpl; [reflexivity|].
  intros H. apply andb_true_iff in H as [Hd Hs].
  now rewrite (digit_not c d Hd Hc), (IH Hs).
Qed.

Lemma take_app_exact (n : nat) (a b : string) :
  String.length a = n -> take n (a ++ b) = a.
Proof.
  revert n. induction a as [|d a IH]; simpl; intros n <-; simpl.
  - reflexivity.
  - now rewrite IH.
Qed.

Lemma drop_app_exact (n : nat) (a b : string) :
  String.length a = n -> drop n (a ++ b) = b.
Proof.
  revert n. induction a as [|d a IH]; simpl; intros n <-; simpl.
  - reflexivity.
  - now apply IH.
Qed.

Lemma length_append (a b : string) :
  String.length (a ++ b) = String.length a + String.length b.
Proof. induction a as [|d a IH]; simpl; [reflexivity|now rewrite IH]. Qed.

Lemma append_assoc (a b c : string) : (a ++ b) ++ c = a ++ (b ++ c).
Proof. induction a as [|d a IH]; simpl; [reflexivity|now rewrite IH]. Qed.

Lemma append_empty_r (a : string) : a ++ EmptyString = a.
Proof. induction a as [|d a IH]; simpl; [reflexivity|now rewrite IH]. Qed.

(** [slice] of a concatenation whose first [from] code units are [a] and
    whose next [to - from] are [b]. *)
Lemma slice_middle (a b c : string) (from to : nat) :
  String.length a = from -> String.length b = to - from ->
  slice from to (a ++ b ++ c) = b.
Proof.
  intros Ha Hb. unfold slice.
  rewrite (drop_app_exact from a _ Ha).
  now apply take_app_exact.
Qed.

Lemma startsWith_app (p s : string) : startsWith p (p ++ s) = true.
Proof.
  induction p as [|d p IH]; simpl; [reflexivity|].
  now rewrite Ascii.eqb_refl, IH.
Qed.

Lemma startsWith_spec (p s : string) :
  startsWith p s = true <-> exists t, s = p ++ t.
Proof.
  split.
  - revert s. induction p as [|d p IH]; intros s H.
    + now exists s.
    + destruct s as [|e s]; simpl in H; [discriminate|].
      apply andb_true_iff in H as [He Hs].
      apply Ascii.eqb_eq in He. subst e.
      destruct (IH s Hs) as [t ->]. now exists t.
  - intros [t ->]. apply startsWith_app.
Qed.

End JSStringFacts.

(* ================================================================== *)
(** ** formatDateTime on well-formed file names *)
(* ================================================================== *)

Module FormatFacts.
Import JSString JSStringFacts Format.

Lemma digits_of_width_inv (n : nat) (s : string) :
  digits_of_width n s = true ->
  String.length s = n /\ occurs "." s = false /\ occurs "_" s = false.
Proof.
  unfold digits_of_width. intros H.
  apply andb_true_iff in H as [Hd Hn]. apply Nat.eqb_eq in Hn.
  repeat split; [exact Hn | |]; now apply all_digits_occurs.
Qed.

Lemma formatDateTime_example :
  formatDateTime "AIA.20221023_084600.0094.synoptic.fits"
  = Some "23/10/2022 08:46".
Proof. reflexivity. Qed.

(** A file name with no dot, or with no underscore, makes the formatter
    throw. *)
Lemma formatDateTime_throws_without_dot :
  formatDateTime "AIA20221023_084600" = None.
Proof. reflexivity. Qed.

Lemma formatDateTime_throws_without_underscore :
  formatDateTime "AIA.20221023.fits" = None.
Proof. reflexivity. Qed.

(** A file name off the layout is formatted all the same. *)
Lemma formatDateTime_garbage :
  formatDateTime "x.abc_d" = Some "//abc d:".
Proof. reflexivity. Qed.

Lemma app_cons_assoc (a b t : string) (c : ascii) :
  (a ++ String c b) ++ t = a ++ String c (b ++ t).
Proof. now rewrite append_assoc. Qed.

(** The two fields the formatter cuts out of a name
    [i.date_hm<tail>]: the date is what precedes the first underscore of the
    second dot-separated field, the time the first four code units after the
    first underscore of the whole name. *)
Lemma formatDateTime_fields (i date hm tail : string) :
  occurs "." i = false -> occurs "_" i = false ->
  occurs "." date = false -> occurs "_" date = false ->
  occurs "." hm = false -> occurs "_" hm = false ->
  String.length hm = 4 ->
  formatDateTime (i ++ String "." (date ++ String "_" (hm ++ tail)))
  = Some (slice 6 8 date ++ "/" ++ slice 4 6 date ++ "/" ++ slice 0 4 date
          ++ " " ++ slice 0 2 hm ++ ":" ++ slice 2 4 hm).
Proof.
  intros Hi Hi' Hd Hd' Hh Hh' Hlen.
  set (F := i ++ String "." (date ++ String "_" (hm ++ tail))).
  assert (Hdot : index (split "." F) 1
                 = Some ((date ++ String "_" hm) ++ before "." tail)).
  { unfold F. rewrite (split_at_first "." i _ Hi).
    destruct (split_before "." (date ++ String "_" (hm ++ tail)))
      as [segs E].
    rewrite E. cbn [index nth_error]. f_equal.
    rewrite <- (app_cons_assoc date hm tail "_").
    apply before_app. rewrite occurs_app. simpl. now rewrite Hd, Hh. }
  assert (Hdate : index (split "_" ((date ++ String "_" hm) ++ before "." tail)) 0
                  = Some date).
  { rewrite app_cons_assoc, (split_at_first "_" date _ Hd'). reflexivity. }
  assert (Hus : index (split "_" F) 1 = Some (hm ++ before "_" tail)).
  { unfold F. rewrite <- (app_cons_assoc i date (String "_" (hm ++ tail)) ".").
    rewrite split_at_first
      by (rewrite occurs_app; simpl; now rewrite Hi', Hd').
    destruct (split_before "_" (hm ++ tail)) as [segs E].
    rewrite E. cbn [index nth_error]. f_equal.
    apply (before_app "_" hm tail Hh'). }
  unfold formatDateTime. rewrite Hdot. cbn [bind].
  rewrite Hdate. cbn [bind]. rewrite Hus. cbn [bind].
  cbv zeta.
  replace (slice 0 4 (hm ++ before "_" tail)) with hm
    by (symmetry; apply (slice_middle EmptyString hm (before "_" tail) 0 4);
        simpl; lia).
  reflexivity.
Qed.

(** C9, as the code has it.  For every file name laid out as
    [<INSTR>.<YYYYMMDD>_<HHMM...>.<rest>] whose instrument code has no dot
    and no underscore, [formatDateTime] returns ["DD/MM/YYYY HH:MM"], built
    from the date and time digits of the name. *)
Theorem formatDateTime_layout (l : layout) :
  well_formed l = true ->
  formatDateTime (fileName l) = Some (expected l).
Proof.
  destruct l as [i y m d h n mo r]. unfold well_formed, fileName, expected.
  cbn [instr yyyy mm dd hh mi more rest].
  intros H.
  repeat (apply andb_true_iff in H as [H ?]).
  apply negb_true_iff in H.
  match goal with Hu : negb (occurs "_" i) = true |- _ =>
    apply negb_true_iff in Hu end.
  repeat match goal with Hw : digits_of_width _ _ = true |- _ =>
    apply digits_of_width_inv in Hw as (? & ? & ?) end.
  change (i ++ "." ++ y ++ m ++ d ++ "_" ++ h ++ n ++ mo ++ "." ++ r)
    with (i ++ String "." (y ++ m ++ d ++ String "_" (h ++ n ++ mo ++ "." ++ r))).
  replace (y ++ m ++ d ++ String "_" (h ++ n ++ mo ++ "." ++ r))
    with ((y ++ m ++ d) ++ String "_" ((h ++ n) ++ mo ++ "." ++ r))
    by (now rewrite !append_assoc).
  rewrite formatDateTime_fields;
    rewrite ?occurs_app, ?length_append;
    repeat match goal with Ho : occurs _ _ = false |- _ => rewrite Ho end;
    try reflexivity; try lia.
  replace (slice 0 4 (y ++ m ++ d)) with y
    by (symmetry; apply (slice_middle EmptyString y (m ++ d) 0 4); simpl; lia).
  rewrite (slice_middle y m d 4 6) by lia.
  replace (y ++ m ++ d) with ((y ++ m) ++ d ++ EmptyString)
    by (now rewrite append_empty_r, append_assoc).
  rewrite (slice_middle (y ++ m) d EmptyString 6 8) by (rewrite ?length_append; lia).
  replace (h ++ n) with (h ++ n ++ EmptyString) by (now rewrite append_empty_r).
  replace (slice 0 2 (h ++ n ++ EmptyString)) with h
    by (symmetry; apply (slice_middle EmptyString h (n ++ EmptyString) 0 2); simpl; lia).
  rewrite (slice_middle h n EmptyString 2 4) by lia.
  reflexivity.
Qed.

Lemma formatDateTime_layout_witness :
  formatDateTime "AIA.20221023_084600.0094.synoptic.fits"
  = Some "23/10/2022 08:46".
Proof.
  exact (formatDateTime_layout
           {| instr := "AIA"; yyyy := "2022"; mm := "10"; dd := "23";
              hh := "08"; mi := "46"; more := "00";
              rest := "0094.synoptic.fits" |} eq_refl).
Defined.

(** C9 fails as stated: the name below has the layout, with the instrument
    code [AIA_193]; the formatter takes the text after the first underscore
    of the whole name for the time and returns ["23/10/2022 19:3."], not
    ["23/10/2022 08:46"]. *)
Lemma instrument_with_underscore :
  let l := {| instr := "AIA_193"; yyyy := "2022"; mm := "10"; dd := "23";
              hh := "08"; mi := "46"; more := "00"; rest := "fits" |} in
  fileName l = "AIA_193.20221023_084600.fits" /\
  expected l = "23/10/2022 08:46" /\
  formatDateTime (fileName l) = Some "23/10/2022 19:3." /\
  formatDateTime (fileName l) <> Some (expected l).
Proof. repeat split. discriminate. Qed.

End FormatFacts.

(* ================================================================== *)
(** ** Math.max and Math.min *)
(* ================================================================== *)

Module NumFacts.
Import Num.

Lemma leb_trans (x y z : number) :
  leb x y = true -> leb y z = true -> leb x z = true.
Proof.
  unfold leb, SFleb, SFcompare.
  destruct x as [[]|[]| |[] mx ex], y as [[]|[]| |[] my ey],
           z as [[]|[]| |[] mz ez];
    simpl; intros Hxy Hyz; try reflexivity; try discriminate; orders.
Qed.

Lemma leb_refl (x : number) : is_nan x = false -> leb x x = true.
Proof.
  unfold leb, SFleb, SFcompare.
  destruct x as [[]|[]| |[] mx ex]; simpl; intros Hx;
    try reflexivity; try discriminate; orders.
Qed.

Lemma ltb_leb (x y : number) : ltb x y = true -> leb x y = true.
Proof.
  unfold leb, ltb, SFltb, SFleb.
  destruct (SFcompare x y) as [[]|]; congruence.
Qed.

Lemma not_ltb_leb (x y : number) :
  is_nan x = false -> is_nan y = false ->
  ltb x y = false -> leb y x = true.
Proof.
  unfold leb, ltb, SFltb, SFleb, SFcompare.
  destruct x as [[]|[]| |[] mx ex], y as [[]|[]| |[] my ey];
    simpl; intros Hx Hy H; try reflexivity; try discriminate; orders.
Qed.

Lemma leb_neg_Infinity (x : number) :
  leb x neg_Infinity = true -> x = neg_Infinity.
Proof.
  unfold leb, SFleb, SFcompare, neg_Infinity.
  destruct x as [[]|[]| |[] mx ex]; simpl; intros H;
    try reflexivity; discriminate.
Qed.

Lemma Infinity_leb (x : number) :
  leb Infinity x = true -> x = Infinity.
Proof.
  unfold leb, SFleb, SFcompare, Infinity.
  destruct x as [[]|[]| |[] mx ex]; simpl; intros H;
    try reflexivity; discriminate.
Qed.

(** One round of the loop of [Math.max]. *)
Lemma max_round (h x : number) :
  is_nan h = false -> is_nan x = false ->
  let h1 := if is_pos_zero x && is_neg_zero h then pos_zero else h in
  let h2 := if ltb h1 x then x else h1 in
  is_nan h2 = false /\ leb h h2 = true /\ leb x h2 = true /\
  (h2 = h \/ h2 = x).
Proof.
  intros Hh Hx.
  destruct (is_pos_zero x && is_neg_zero h) eqn:Hz; cbv zeta.
  - apply andb_true_iff in Hz as [Hp Hn].
    destruct x as [[]| | |]; try discriminate Hp.
    destruct h as [[]| | |]; try discriminate Hn.
    cbn. auto.
  - destruct (ltb h x) eqn:Hlt.
    + repeat split; auto using ltb_leb, leb_refl.
    + repeat split; auto using not_ltb_leb, leb_refl.
Qed.

Lemma max_from_spec (xs : list number) :
  forall h, is_nan h = false -> no_nan xs ->
  let r := max_from h xs in
  is_nan r = false /\ leb h r = true /\
  (forall x, In x xs -> leb x r = true) /\ (r = h \/ In r xs).
Proof.
  induction xs as [|x xs IH]; intros h Hh Hxs; cbn [max_from].
  - repeat split; auto using leb_refl; intros x [].
  - inversion Hxs as [|? ? Hx Hxs']; subst. rewrite Hx.
    destruct (max_round h x Hh Hx) as (Hn & Hle & Hxle & Hor).
    cbv zeta in Hn, Hle, Hxle, Hor.
    set (h2 := if ltb (if is_pos_zero x && is_neg_zero h then pos_zero else h) x
               then x
               else if is_pos_zero x && is_neg_zero h then pos_zero else h) in *.
    destruct (IH h2 Hn Hxs') as (Rn & Rle & Rall & Ror).
    cbv zeta in Rn, Rle, Rall, Ror.
    repeat split.
    + exact Rn.
    + eauto using leb_trans.
    + intros y [<-|Hy]; [eauto using leb_trans | auto].
    + destruct Ror as [->|Hin]; [|right; now right].
      destruct Hor as [->| ->]; [now left | right; now left].
Qed.

Lemma min_round (l x : number) :
  is_nan l = false -> is_nan x = false ->
  let l1 := if is_neg_zero x && is_pos_zero l then neg_zero else l in
  let l2 := if ltb x l1 then x else l1 in
  is_nan l2 = false /\ leb l2 l = true /\ leb l2 x = true /\
  (l2 = l \/ l2 = x).
Proof.
  intros Hl Hx.
  destruct (is_neg_zero x && is_pos_zero l) eqn:Hz; cbv zeta.
  - apply andb_true_iff in Hz as [Hn Hp].
    destruct x as [[]| | |]; try discriminate Hn.
    destruct l as [[]| | |]; try discriminate Hp.
    cbn. auto.
  - destruct (ltb x l) eqn:Hlt.
    + repeat split; auto using ltb_leb, leb_refl.
    + repeat split; auto using not_ltb_leb, leb_refl.
Qed.

Lemma min_from_spec (xs : list number) :
  forall l, is_nan l = false -> no_nan xs ->
  let r := min_from l xs in
  is_nan r = false /\ leb r l = true /\
  (forall x, In x xs -> leb r x = true) /\ (r = l \/ In r xs).
Proof.
  induction xs as [|x xs IH]; intros l Hl Hxs; cbn [min_from].
  - repeat split; auto using leb_refl; intros x [].
  - inversion Hxs as [|? ? Hx Hxs']; subst. rewrite Hx.
    destruct (min_round l x Hl Hx) as (Hn & Hle & Hxle & Hor).
    cbv zeta in Hn, Hle, Hxle, Hor.
    set (l2 := if ltb x (if is_neg_zero x && is_pos_zero l then neg_zero else l)
               then x
               else if is_neg_zero x && is_pos_zero l then neg_zero else l) in *.
    destruct (IH l2 Hn Hxs') as (Rn & Rle & Rall & Ror).
    cbv zeta in Rn, Rle, Rall, Ror.
    repeat split.
    + exact Rn.
    + eauto using leb_trans.
    + intros y [<-|Hy]; [eauto using leb_trans | auto].
    + destruct Ror as [->|Hin]; [|right; now right].
      destruct Hor as [->| ->]; [now left | right; now left].
Qed.

(** On a non-empty list without [NaN], [Math.max] returns a greatest
    element and [Math.min] a least one. *)
Lemma Math_max_maximum (xs : list number) :
  xs <> [] -> no_nan xs -> maximum_of xs (Math_max xs).
Proof.
  intros Hne Hxs. unfold Math_max, maximum_of.
  destruct (max_from_spec xs neg_Infinity eq_refl Hxs) as (_ & _ & Hall & Hor).
  cbv zeta in Hall, Hor. split; [|exact Hall].
  destruct Hor as [E|Hin]; [|exact Hin].
  destruct xs as [|x xs]; [contradiction|].
  rewrite E. left.
  apply leb_neg_Infinity. rewrite <- E. apply Hall. now left.
Qed.

Lemma Math_min_minimum (xs : list number) :
  xs <> [] -> no_nan xs -> minimum_of xs (Math_min xs).
Proof.
  intros Hne Hxs. unfold Math_min, minimum_of.
  destruct (min_from_spec xs Infinity eq_refl Hxs) as (_ & _ & Hall & Hor).
  cbv zeta in Hall, Hor. split; [|exact Hall].
  destruct Hor as [E|Hin]; [|exact Hin].
  destruct xs as [|x xs]; [contradiction|].
  rewrite E. left.
  apply Infinity_leb. rewrite <- E. apply Hall. now left.
Qed.

(** A [NaN] argument poisons the result: the hypothesis above is needed. *)
Lemma Math_max_nan : Math_max [of_Z 1; NaN; of_Z 2] = NaN.
Proof. reflexivity. Qed.

Lemma fold_add_map {A : Type} (f : A -> number) (xs : list A) (acc : number) :
  fold_left (fun a x => add a (f x)) xs acc = fold_left add (map f xs) acc.
Proof.
  revert acc. induction xs as [|x xs IH]; intros acc; simpl; [reflexivity|].
  apply IH.
Qed.

End NumFacts.

(* ================================================================== *)
(** ** The aggregation *)
(* ================================================================== *)

Module StatsFacts.
Import JSString JSStringFacts JSObject Stats.

Lemma dataArray_in (year : string) (cache : obj FITS.FITSData)
    (item : FITS.FITSData) :
  In item (dataArray year cache) <->
  exists k, In (k, item) cache /\ startsWith year k = true.
Proof.
  unfold dataArray, entries. rewrite in_map_iff. split.
  - intros [[k v] [E H]]. simpl in E. subst v.
    apply filter_In in H as [H1 H2]. now exists k.
  - intros [k [H1 H2]]. exists (k, item). split; [reflexivity|].
    apply filter_In. now split.
Qed.

Lemma EnhancedStats_null (locale : string -> string) (year : string)
    (cache : obj FITS.FITSData) :
  EnhancedStats locale year cache = None <-> dataArray year cache = [].
Proof.
  unfold EnhancedStats.
  destruct (dataArray year cache) as [|item data]; simpl; split;
    intros H; try reflexivity; discriminate.
Qed.

Lemma EnhancedStats_some (locale : string -> string) (year : string)
    (cache : obj FITS.FITSData) (summary : Summary) (series : list Point.t) :
  EnhancedStats locale year cache = Some (summary, series) ->
  dataArray year cache <> [] /\
  summary = DataSummary (dataArray year cache) /\
  series = StatsOverTime locale (dataArray year cache).
Proof.
  unfold EnhancedStats.
  destruct (dataArray year cache) as [|item data]; simpl; intros H;
    [discriminate|].
  inversion H. repeat split. discriminate.
Qed.

(** Without the guard of [EnhancedStats], the summary of no records would
    be [NaN], [-Infinity] and [Infinity]. *)
Lemma DataSummary_nil :
  DataSummary [] =
  {| totalObservations := 0; averageIntensity := Num.NaN;
     maxIntensity := Num.neg_Infinity; minIntensity := Num.Infinity |}.
Proof. reflexivity. Qed.

(** C3. For every non-empty list of included records (as decoded from
    JSON, so without [NaN]), the summary has the count of the records, the
    sum of their means divided by the count, the maximum of their maxima
    and the minimum of their minima; three records with means 1, 2, 6 give
    the average 3, and three with maxima 10, 20, 5 give the maximum 20. *)
Theorem DataSummary_correct :
  (forall data : list FITS.FITSData,
      data <> [] ->
      Num.no_nan (maxes data) -> Num.no_nan (mins data) ->
      summary_spec data (DataSummary data)) /\
  (forall a b c : FITS.FITSData,
      means [a; b; c] = [Num.of_Z 1; Num.of_Z 2; Num.of_Z 6] ->
      averageIntensity (DataSummary [a; b; c]) = Num.of_Z 3) /\
  (forall a b c : FITS.FITSData,
      maxes [a; b; c] = [Num.of_Z 10; Num.of_Z 20; Num.of_Z 5] ->
      maxIntensity (DataSummary [a; b; c]) = Num.of_Z 20).
Proof.
  split; [|split].
  - intros data Hne Hmax Hmin. unfold summary_spec, DataSummary.
    cbn [totalObservations averageIntensity maxIntensity minIntensity].
    assert (Hmaxes : maxes data <> [])
      by (destruct data; [contradiction|discriminate]).
    assert (Hmins : mins data <> [])
      by (destruct data; [contradiction|discriminate]).
    split; [reflexivity|]. split; [|split].
    + unfold sumOfMeans, Num.sum, means. now rewrite NumFacts.fold_add_map.
    + now apply NumFacts.Math_max_maximum.
    + now apply NumFacts.Math_min_minimum.
  - intros a b c H. unfold DataSummary.
    cbn [averageIntensity]. unfold sumOfMeans.
    rewrite NumFacts.fold_add_map. fold (means [a; b; c]). rewrite H.
    vm_compute. reflexivity.
  - intros a b c H. unfold DataSummary. cbn [maxIntensity].
    fold (maxes [a; b; c]). rewrite H. vm_compute. reflexivity.
Qed.

(** *** The year filter *)

Lemma before_prefix (c : ascii) (s : string) :
  startsWith (before c s) s = true.
Proof.
  induction s as [|d s IH]; simpl; [reflexivity|].
  destruct (Ascii.eqb d c); simpl; [reflexivity|].
  now rewrite Ascii.eqb_refl, IH.
Qed.

Lemma startsWith_same_length (p q s : string) :
  startsWith p s = true -> startsWith q s = true ->
  String.length p = String.length q -> p = q.
Proof.
  revert q s. induction p as [|a p IH]; intros [|b q] [|c s]; simpl;
    try discriminate; try reflexivity.
  intros Hp Hq Hl.
  apply andb_true_iff in Hp as [Ha Hp], Hq as [Hb Hq].
  apply Ascii.eqb_eq in Ha, Hb. subst a b.
  f_equal. apply (IH q s Hp Hq). now injection Hl.
Qed.

(** The entries of the selected year are always included. *)
Lemma entriesOfYear_included (year : string) (cache : obj FITS.FITSData)
    (k : string) (item : FITS.FITSData) :
  In (k, item) (entriesOfYear year cache) -> In item (dataArray year cache).
Proof.
  unfold entriesOfYear, entries. intros H.
  apply filter_In in H as [Hin Hy]. simpl in Hy.
  apply String.eqb_eq in Hy.
  apply dataArray_in. exists k. split; [exact Hin|].
  rewrite <- Hy. apply before_prefix.
Qed.

(** When every year in the cache is as long as the selected one (as with
    four-digit years), the filter is exact. *)
Lemma dataArray_exact (year : string) (cache : obj FITS.FITSData) :
  (forall k, In k (keys cache) ->
             String.length (yearOf k) = String.length year) ->
  dataArray year cache = map snd (entriesOfYear year cache).
Proof.
  unfold dataArray, entriesOfYear, entries, keys. intros Hlen.
  f_equal. apply filter_ext_in. intros [k item] Hin. simpl.
  assert (Hk : String.length (yearOf k) = String.length year)
    by (apply Hlen; apply in_map_iff; now exists (k, item)).
  destruct (String.eqb_spec (yearOf k) year) as [<-|Hne].
  - apply before_prefix.
  - destruct (startsWith year k) eqn:Hs; [|reflexivity].
    exfalso. apply Hne.
    apply (startsWith_same_length (yearOf k) year k);
      [apply before_prefix | exact Hs | exact Hk].
Qed.

(** With years of one length, a year without records gets the empty
    result. *)
Lemma empty_year_null (locale : string -> string) (year : string)
    (cache : obj FITS.FITSData) :
  (forall k, In k (keys cache) ->
             String.length (yearOf k) = String.length year) ->
  entriesOfYear year cache = [] ->
  EnhancedStats locale year cache = None.
Proof.
  intros Hlen He. apply EnhancedStats_null.
  now rewrite (dataArray_exact year cache Hlen), He.
Qed.

(** No entry stored under 2022 is aggregated for 2023. *)
Lemma year_2022_not_in_2023 (cache : obj FITS.FITSData)
    (item : FITS.FITSData) :
  In item (dataArray "2023" cache) ->
  exists k, In (k, item) cache /\
            forall filename, k <> Dashboard.key "2022" filename.
Proof.
  intros H. apply dataArray_in in H as [k [Hin Hs]].
  exists k. split; [exact Hin|].
  intros filename ->. discriminate Hs.
Qed.

(** C4, at the failing input.  The cache holds one record, of the year
    ["20221"]; no entry has the year component ["2022"], and yet the
    aggregation for ["2022"] includes the record, because its key starts
    with ["2022"]. *)
Theorem year_filter_takes_longer_year :
  entriesOfYear "2022" Samples.otherYearCache = [] /\
  dataArray "2022" Samples.otherYearCache = [Samples.recordA].
Proof. split; reflexivity. Qed.

(** C7, at the failing input.  With the same cache, no record belongs to
    ["2022"], and the aggregation for ["2022"] is not the empty result: it
    is the summary and the series of the record of ["20221"]. *)
Theorem empty_year_not_reported_empty (locale : string -> string) :
  entriesOfYear "2022" Samples.otherYearCache = [] /\
  EnhancedStats locale "2022" Samples.otherYearCache
  = Some (DataSummary [Samples.recordA],
          StatsOverTime locale [Samples.recordA]).
Proof. split; reflexivity. Qed.

(** *** The chart series *)

Lemma StatsOverTime_carries (locale : string -> string)
    (data : list FITS.FITSData) :
  Forall2 (pointCarries locale) data (StatsOverTime locale data).
Proof.
  induction data as [|item data IH]; simpl; constructor; [|exact IH].
  repeat split.
Qed.

(** C6, as the code has it.  The series has one point per included record,
    in the order of the cache; each point carries the four statistics of
    its record and a date label computed from the [observation_date] field
    of the record.  The file name plays no part. *)
Theorem series_points (locale : string -> string) (year : string)
    (cache : obj FITS.FITSData) (summary : Summary) (series : list Point.t) :
  EnhancedStats locale year cache = Some (summary, series) ->
  Forall2 (pointCarries locale) (dataArray year cache) series.
Proof.
  intros H. apply EnhancedStats_some in H as (_ & _ & ->).
  apply StatsOverTime_carries.
Qed.

(** Two caches that hold the same records under different file names give
    the same series. *)
Lemma series_ignores_filenames (locale : string -> string) (year f g : string)
    (item : FITS.FITSData) :
  EnhancedStats locale year (set empty (Dashboard.key year f) item)
  = EnhancedStats locale year (set empty (Dashboard.key year g) item).
Proof.
  unfold EnhancedStats, dataArray, entries, set, empty, Dashboard.key.
  cbn [filter fst].
  now rewrite !startsWith_app.
Qed.

Lemma series_points_witness :
  Forall2 (pointCarries (fun s => s))
          (dataArray "2022"
             (set empty (Dashboard.key "2022" Samples.fileA) Samples.recordA))
          (StatsOverTime (fun s => s) [Samples.recordA]).
Proof.
  exact (series_points (fun s => s) "2022"
           (set empty (Dashboard.key "2022" Samples.fileA) Samples.recordA)
           (DataSummary [Samples.recordA])
           (StatsOverTime (fun s => s) [Samples.recordA])
           eq_refl).
Defined.

(** C6 fails as stated: the one point of the series for the file of
    23 October 2022, 08:46 is dated ["Invalid Date"], not with the time that
    [formatDateTime] reads off the file name. *)
Lemma series_date_not_from_filename :
  let cache := set empty (Dashboard.key "2022" Samples.fileA) Samples.recordA in
  option_map (fun r => map Point.date (snd r))
             (EnhancedStats (fun s => s) "2022" cache)
  = Some ["Invalid Date"] /\
  Format.formatDateTime Samples.fileA = Some "23/10/2022 08:46".
Proof. split; reflexivity. Qed.

Lemma DataSummary_correct_witness :
  summary_spec [Samples.recordA; Samples.recordB; Samples.recordC]
               (DataSummary [Samples.recordA; Samples.recordB; Samples.recordC]).
Proof.
  apply (proj1 DataSummary_correct).
  - discriminate.
  - repeat constructor.
  - repeat constructor.
Defined.

End StatsFacts.

(* ================================================================== *)
(** ** Objects as maps *)
(* ================================================================== *)

Module JSObjectFacts.
Import JSObject.

Lemma get_set_same {V : Type} (o : obj V) (k : string) (v : V) :
  get (set o k v) k = Some v.
Proof.
  induction o as [|[k' v'] o IH]; simpl.
  - now rewrite String.eqb_refl.
  - destruct (String.eqb k' k) eqn:E; simpl; rewrite E; [reflexivity|exact IH].
Qed.

Lemma get_set_other {V : Type} (o : obj V) (k k' : string) (v : V) :
  k' <> k -> get (set o k' v) k = get o k.
Proof.
  intros Hne. induction o as [|[k0 v0] o IH]; simpl.
  - destruct (String.eqb_spec k' k); [contradiction|reflexivity].
  - destruct (String.eqb_spec k0 k') as [->|Hk0]; simpl.
    + destruct (String.eqb_spec k' k); [contradiction|reflexivity].
    + destruct (String.eqb k0 k); [reflexivity|exact IH].
Qed.

Lemma get_set_stored {V : Type} (o : obj V) (k k' : string) (v : V) :
  get (set o k' v) k <> None <-> get o k <> None \/ k' = k.
Proof.
  destruct (String.eqb_spec k' k) as [->|Hne].
  - rewrite get_set_same. split; [now right|discriminate].
  - rewrite (get_set_other o k k' v Hne). split; [now left|].
    intros [H|H]; [exact H|contradiction].
Qed.

Lemma get_in {V : Type} (o : obj V) (k : string) (v : V) :
  get o k = Some v -> In (k, v) o.
Proof.
  induction o as [|[k' v'] o IH]; simpl; [discriminate|].
  destruct (String.eqb_spec k' k) as [->|Hne].
  - intros [= ->]. now left.
  - intros H. right. now apply IH.
Qed.

Lemma get_none_keys {V : Type} (o : obj V) (k : string) :
  get o k = None <-> ~ In k (keys o).
Proof.
  unfold keys. induction o as [|[k' v'] o IH]; simpl.
  - split; [intros _ []|reflexivity].
  - destruct (String.eqb_spec k' k) as [->|Hne].
    + split; [discriminate|]. intros H. exfalso. apply H. now left.
    + rewrite IH. split.
      * intros H [E|Hin]; [contradiction|now apply H].
      * intros H Hin. apply H. now right.
Qed.

End JSObjectFacts.

(* ================================================================== *)
(** ** The fetch cache and the file catalog *)
(* ================================================================== *)

Module DashboardFacts.
Import JSString JSStringFacts JSObject JSObjectFacts Dashboard.

(** *** Rendering depends on [error], [years] and [files] only, as far as
    crashing is concerned *)

Lemma traverse_is_none {A B : Type} (f : A -> option B) (xs : list A) :
  traverse f xs = None <-> exists x, In x xs /\ f x = None.
Proof.
  induction xs as [|x xs IH]; simpl.
  - split; [discriminate|]. now intros [x [[] _]].
  - destruct (f x) eqn:Ex.
    + destruct (traverse f xs) eqn:Et.
      * split; [discriminate|].
        intros [x0 [[<-|Hin] H0]]; [congruence|].
        assert (Hn : Some l = None) by (apply IH; now exists x0).
        discriminate Hn.
      * split; [|reflexivity]. intros _.
        destruct (proj1 IH eq_refl) as [x0 [Hin H0]].
        exists x0. split; [now right|exact H0].
    + split; [|reflexivity]. intros _. exists x. split; [now left|exact Ex].
Qed.

Lemma traverse_none {A B C : Type} (f : A -> option B) (g : A -> option C)
    (xs : list A) :
  (forall x, f x = None <-> g x = None) ->
  (traverse f xs = None <-> traverse g xs = None).
Proof.
  intros Hfg. rewrite !traverse_is_none.
  split; intros [x [Hin H]]; exists x; split; try exact Hin; now apply Hfg.
Qed.

Lemma renderRow_none (s1 s2 : AppState) (year filename : string) :
  renderRow s1 year filename = None <-> renderRow s2 year filename = None.
Proof.
  unfold renderRow. destruct (Format.formatDateTime filename);
    split; intros H; (discriminate || reflexivity).
Qed.

Lemma Accordion_none (s1 s2 : AppState) (year : string) :
  files s1 = files s2 ->
  (Accordion s1 year = None <-> Accordion s2 year = None).
Proof.
  intros Hf. unfold Accordion. rewrite Hf.
  destruct (get (files s2) year) as [[names|e]|].
  - apply traverse_none. intros x. apply renderRow_none.
  - split; reflexivity.
  - split; intros H; exact H.
Qed.

Lemma renderYear_none (s1 s2 : AppState) (year : string) :
  files s1 = files s2 ->
  (renderYear s1 year = None <-> renderYear s2 year = None).
Proof.
  intros Hf. unfold renderYear.
  pose proof (Accordion_none s1 s2 year Hf) as [H1 H2].
  destruct (Accordion s1 year), (Accordion s2 year); split; intros H;
    try discriminate; try reflexivity;
    (discriminate (H1 eq_refl) || discriminate (H2 eq_refl)).
Qed.

Lemma renderDashboard_crashed (s1 s2 : AppState) :
  years s1 = years s2 -> files s1 = files s2 ->
  (renderDashboard s1 = Crashed <-> renderDashboard s2 = Crashed).
Proof.
  intros Hy Hf. unfold renderDashboard. rewrite Hy.
  destruct (years s2) as [ys|e]; [|split; reflexivity].
  pose proof (traverse_none (renderYear s1) (renderYear s2) ys
                (fun x => renderYear_none s1 s2 x Hf)) as [H1 H2].
  destruct (traverse (renderYear s1) ys), (traverse (renderYear s2) ys);
    split; intros H; try discriminate; try reflexivity;
    (discriminate (H1 eq_refl) || discriminate (H2 eq_refl)).
Qed.

Lemma crashed_ext (s1 s2 : AppState) :
  error s1 = error s2 -> years s1 = years s2 -> files s1 = files s2 ->
  crashed s1 = crashed s2.
Proof.
  intros He Hy Hf. unfold crashed, render. rewrite He.
  pose proof (renderDashboard_crashed s1 s2 Hy Hf) as [H1 H2].
  destruct (error s2) as [m|]; [destruct (truthy (Some m)); [reflexivity|]|];
    destruct (renderDashboard s1) eqn:E1, (renderDashboard s2) eqn:E2;
    try reflexivity;
    (discriminate (H1 eq_refl) || discriminate (H2 eq_refl)).
Qed.

Lemma error_view (s : AppState) (message : string) :
  error s = Some message -> truthy (Some message) = true ->
  render s = ErrorView message.
Proof. intros He Ht. unfold render. now rewrite He, Ht. Qed.

(** *** What each piece of code does to the cache and to the call log *)

(** The URL of a FITS call ends with the cache key of its file. *)
Lemma url_key (y f : string) :
  url (GetFitsData y f) = "http://localhost:5000/api/fits-data/" ++ key y f.
Proof. reflexivity. Qed.

Lemma setSelectedYear_fitsData (y : string) (s : AppState) :
  fitsData (setSelectedYear y s) = fitsData s.
Proof.
  unfold setSelectedYear, fetchFilesForYear.
  destruct (isSelected s y); [reflexivity|].
  destruct (truthy (Some y) && negb (crashed (writeSelectedYear (Some y) s)));
    reflexivity.
Qed.

Lemma fetchFITSData_fitsData (y f : string) (s : AppState) :
  fitsData (fetchFITSData y f s) = fitsData s.
Proof.
  unfold fetchFITSData. now destruct (get (fitsData s) (key y f)).
Qed.

Lemma toggleItem_eq (y f : string) (s : AppState) :
  toggleItem y f s = fetchFITSData y f s.
Proof.
  unfold toggleItem, fetchFITSData.
  now destruct (get (fitsData s) (key y f)).
Qed.

(** The cache after a step: only the 2xx completion of an awaited FITS
    call writes to it, and it writes the key of that call. *)
Lemma step_fitsData (e : Event) (s : AppState) :
  fitsData (step e s) =
  match e with
  | Settle id (FitsReply data) =>
      if negb (crashed s) && isAwaited id s then
        match nth_error (calls s) id with
        | Some (GetFitsData y f) => set (fitsData s) (key y f) data
        | _ => fitsData s
        end
      else fitsData s
  | _ => fitsData s
  end.
Proof.
  unfold step. destruct (crashed s); simpl.
  - destruct e as [y|y f|id o]; try reflexivity.
    now destruct o.
  - destruct e as [y|y f|id o].
    + destruct (hasYearButton s y); [apply setSelectedYear_fitsData|reflexivity].
    + destruct (hasRow s y f); [|reflexivity].
      rewrite toggleItem_eq. apply fetchFITSData_fitsData.
    + destruct (isAwaited id s); [|now destruct o].
      destruct (nth_error (calls s) id) as [r|]; [|now destruct o].
      destruct r as [|year|year filename], o as [|ok data|data|err];
        simpl; try reflexivity.
      destruct data as [[|first names]|err]; try reflexivity.
      now rewrite setSelectedYear_fitsData.
Qed.

Lemma stored_step (k : string) (e : Event) (s : AppState) :
  get (fitsData (step e s)) k <> None <->
  get (fitsData s) k <> None \/ completesOk k e s = true.
Proof.
  rewrite step_fitsData. unfold completesOk.
  destruct e as [y|y f|id o];
    try (split; [now left | now intros [H|H]]).
  destruct o as [|ok data|data|err];
    try (split; [now left | now intros [H|H]]).
  destruct (negb (crashed s) && isAwaited id s); simpl;
    [|split; [now left | now intros [H|H]]].
  destruct (nth_error (calls s) id) as [[|year|year filename]|]; simpl;
    try (split; [now left | now intros [H|H]]).
  rewrite get_set_stored.
  split; (intros [H|H]; [now left|right]).
  - now apply String.eqb_eq.
  - now apply String.eqb_eq in H.
Qed.

Lemma stored_run (k : string) (evs : list Event) :
  forall s,
  get (fitsData (run evs s)) k <> None <->
  get (fitsData s) k <> None \/ fetchedOk k evs s = true.
Proof.
  induction evs as [|e evs IH]; intros s; simpl.
  - split; [now left | now intros [H|H]].
  - fold (run evs (step e s)). rewrite IH, stored_step.
    rewrite orb_true_iff. tauto.
Qed.

Lemma stays_stored (k : string) (evs : list Event) (s : AppState) :
  get (fitsData s) k <> None -> get (fitsData (run evs s)) k <> None.
Proof. intros H. apply stored_run. now left. Qed.

Lemma quiet_step (e : Event) (s : AppState) :
  (forall k, completesOk k e s = false) -> fitsData (step e s) = fitsData s.
Proof.
  intros Hq. rewrite step_fitsData.
  destruct e as [y|y f|id o]; try reflexivity.
  destruct o as [|ok data|data|err]; try reflexivity.
  destruct (negb (crashed s) && isAwaited id s) eqn:Hg; [|reflexivity].
  destruct (nth_error (calls s) id) as [[|year|year filename]|] eqn:Hc;
    try reflexivity.
  specialize (Hq (key year filename)). unfold completesOk in Hq.
  rewrite Hg, Hc in Hq. simpl in Hq. now rewrite String.eqb_refl in Hq.
Qed.

Lemma fitsCalls_dispatch (k : string) (r : Request) (s : AppState) :
  fitsCalls k (dispatch r s)
  = fitsCalls k s + (if isFitsCall k r then 1 else 0).
Proof.
  unfold fitsCalls, dispatch. cbn [calls].
  rewrite filter_app, List.length_app. simpl.
  now destruct (isFitsCall k r).
Qed.

Lemma fetchFITSData_absent (y f : string) (s : AppState) :
  get (fitsData s) (key y f) = None ->
  fetchFITSData y f s = dispatch (GetFitsData y f) (setLoading true s).
Proof. intros H. unfold fetchFITSData. now rewrite H. Qed.

Lemma fetchFITSData_stored (y f : string) (s : AppState) :
  get (fitsData s) (key y f) <> None -> fetchFITSData y f s = s.
Proof.
  intros H. unfold fetchFITSData.
  destruct (get (fitsData s) (key y f)); [reflexivity|contradiction].
Qed.

Lemma fetchFITSData_calls (y f : string) (s : AppState) :
  get (fitsData s) (key y f) = None ->
  fitsCalls (key y f) (fetchFITSData y f s) = S (fitsCalls (key y f) s).
Proof.
  intros H. rewrite (fetchFITSData_absent y f s H), fitsCalls_dispatch.
  simpl. rewrite String.eqb_refl.
  unfold fitsCalls. cbn [calls setLoading]. lia.
Qed.

Lemma inFlight_dispatch (y f : string) (s : AppState) :
  inFlight (key y f) (dispatch (GetFitsData y f) s) = true.
Proof.
  unfold inFlight, dispatch. cbn [calls awaiting].
  rewrite existsb_app. apply orb_true_iff. right. simpl.
  rewrite nth_error_app2, Nat.sub_diag by lia. simpl.
  now rewrite String.eqb_refl.
Qed.

Lemma toggle_stored (y f : string) (s : AppState) :
  get (fitsData s) (key y f) <> None -> step (ToggleItem y f) s = s.
Proof.
  intros H. unfold step.
  destruct (crashed s); [reflexivity|].
  destruct (hasRow s y f); [|reflexivity].
  rewrite toggleItem_eq. now apply fetchFITSData_stored.
Qed.

(** *** Request coalescing *)

(** C1, as the code has it.  Every invocation of [fetchFITSData] for a key
    with no stored record dispatches one more external call for it,
    whether or not an earlier call for the key is still in flight: a second
    invocation while the first is in flight makes two calls. *)
Theorem fetchFITSData_not_coalesced (s : AppState) (y f : string) :
  get (fitsData s) (key y f) = None ->
  let s1 := fetchFITSData y f s in
  let s2 := fetchFITSData y f s1 in
  inFlight (key y f) s1 = true /\
  get (fitsData s1) (key y f) = None /\
  fitsCalls (key y f) s1 = 1 + fitsCalls (key y f) s /\
  fitsCalls (key y f) s2 = 2 + fitsCalls (key y f) s.
Proof.
  intros H. cbv zeta.
  assert (H1 : get (fitsData (fetchFITSData y f s)) (key y f) = None)
    by now rewrite fetchFITSData_fitsData.
  repeat split.
  - rewrite (fetchFITSData_absent y f s H). apply inFlight_dispatch.
  - exact H1.
  - now apply fetchFITSData_calls.
  - rewrite (fetchFITSData_calls y f _ H1), (fetchFITSData_calls y f s H).
    reflexivity.
Qed.

Lemma fetchFITSData_not_coalesced_witness :
  let s := run Samples.browsing2022 initial in
  let s2 := fetchFITSData "2022" Samples.fileA
              (fetchFITSData "2022" Samples.fileA s) in
  fitsCalls (key "2022" Samples.fileA) s2
  = 2 + fitsCalls (key "2022" Samples.fileA) s.
Proof.
  exact (proj2 (proj2 (proj2
    (fetchFITSData_not_coalesced (run Samples.browsing2022 initial)
       "2022" Samples.fileA eq_refl)))).
Defined.

(** C1 fails as stated: the user expands a row and clicks it again before
    the data has arrived; the first call is still in flight, nothing is
    stored, and a second call goes out. *)
Lemma second_click_fetches_again :
  let k := key "2022" Samples.fileA in
  let s1 := run (Samples.browsing2022 ++ [ToggleItem "2022" Samples.fileA])
                initial in
  let s2 := step (ToggleItem "2022" Samples.fileA) s1 in
  inFlight k s1 = true /\ get (fitsData s1) k = None /\
  fitsCalls k s1 = 1 /\ fitsCalls k s2 = 2.
Proof. vm_compute. repeat split. Qed.

(** *** Loaded entries *)

(** C2. Once a record is stored for a key, a request for that key changes
    nothing and dispatches nothing, whether it is the call of
    [fetchFITSData] or the click that leads to it; and since a stored key
    stays stored, this holds for every later request too. *)
Theorem loaded_entry_terminal (s : AppState) (y f : string)
    (data : FITS.FITSData) :
  get (fitsData s) (key y f) = Some data ->
  (fetchFITSData y f s = s /\ step (ToggleItem y f) s = s) /\
  (forall evs : list Event,
      let s' := run evs s in
      get (fitsData s') (key y f) <> None /\
      fetchFITSData y f s' = s' /\ step (ToggleItem y f) s' = s').
Proof.
  intros H.
  assert (Hs : get (fitsData s) (key y f) <> None) by congruence.
  split.
  - split; [now apply fetchFITSData_stored | now apply toggle_stored].
  - intros evs s'.
    assert (Hs' : get (fitsData s') (key y f) <> None)
      by now apply stays_stored.
    repeat split;
      [exact Hs' | now apply fetchFITSData_stored | now apply toggle_stored].
Qed.

Lemma loaded_entry_terminal_witness :
  let s := run (Samples.browsing2022 ++
                [ToggleItem "2022" Samples.fileA;
                 Settle 2 (FitsReply Samples.recordA)]) initial in
  fetchFITSData "2022" Samples.fileA s = s /\
  step (ToggleItem "2022" Samples.fileA) s = s.
Proof.
  exact (proj1
    (loaded_entry_terminal
       (run (Samples.browsing2022 ++
             [ToggleItem "2022" Samples.fileA;
              Settle 2 (FitsReply Samples.recordA)]) initial)
       "2022" Samples.fileA Samples.recordA eq_refl)).
Defined.

(** A record that is stored can still be replaced: not by a request, but by
    the completion of a second call that was already in flight. *)
Lemma late_duplicate_overwrites :
  let k := key "2022" Samples.fileA in
  let s := run (Samples.browsing2022 ++
                [ToggleItem "2022" Samples.fileA;
                 ToggleItem "2022" Samples.fileA;
                 Settle 2 (FitsReply Samples.recordA)]) initial in
  get (fitsData s) k = Some Samples.recordA /\
  get (fitsData (step (Settle 3 (FitsReply Samples.recordB)) s)) k
  = Some Samples.recordB.
Proof. vm_compute. split; reflexivity. Qed.

(** *** The cache invariant *)

Lemma settle_fits (s : AppState) (id : nat) (y f : string) (o : Outcome) :
  crashed s = false -> isAwaited id s = true ->
  nth_error (calls s) id = Some (GetFitsData y f) ->
  step (Settle id o) s =
  match o with
  | Threw =>
      setLoading false
        (setError (Some "Failed to fetch FITS data") (settled id s))
  | FitsError e => setLoading false (setError e (settled id s))
  | FitsReply data =>
      setLoading false
        (setFitsData (fun prev => set prev (key y f) data) (settled id s))
  | ListingReply _ _ => s
  end.
Proof.
  intros Hc Ha Hn. unfold step. rewrite Hc, Ha, Hn.
  now destruct o.
Qed.

(** C10. A key has an entry in the cache exactly when a fetch for that key
    has completed with a successful reply; a step that is not such a
    completion (a request going out, a failed fetch) leaves the cache as it
    was; so after a failed fetch the key still reads as absent, and a new
    request for it dispatches the external call again. *)
Theorem cache_entry_iff_fetched :
  (forall (evs : list Event) (k : string),
      get (fitsData (run evs initial)) k <> None <->
      fetchedOk k evs initial = true) /\
  (forall (e : Event) (s : AppState),
      (forall k, completesOk k e s = false) ->
      fitsData (step e s) = fitsData s) /\
  (forall (s : AppState) (y f : string),
      fitsData (fetchFITSData y f s) = fitsData s) /\
  (forall (s : AppState) (id : nat) (y f : string) (o : Outcome),
      isAwaited id s = true ->
      nth_error (calls s) id = Some (GetFitsData y f) ->
      (o = Threw \/ exists e, o = FitsError e) ->
      get (fitsData s) (key y f) = None ->
      let s' := step (Settle id o) s in
      get (fitsData s') (key y f) = None /\
      fitsCalls (key y f) (fetchFITSData y f s')
      = 1 + fitsCalls (key y f) s').
Proof.
  split; [|split; [|split]].
  - intros evs k. rewrite stored_run. simpl.
    split; [intros [H|H]; [contradiction|exact H] | now right].
  - exact quiet_step.
  - intros s y f. apply fetchFITSData_fitsData.
  - intros s id y f o Ha Hn Ho Hk s'.
    assert (Hs' : fitsData s' = fitsData s).
    { apply quiet_step. intros k.
      destruct Ho as [->|[e ->]]; reflexivity. }
    assert (Hk' : get (fitsData s') (key y f) = None) by now rewrite Hs'.
    split; [exact Hk'|]. now apply fetchFITSData_calls.
Qed.

Lemma cache_entry_iff_fetched_witness :
  let s := run (Samples.browsing2022 ++ [ToggleItem "2022" Samples.fileB])
               initial in
  let s' := step (Settle 2 (FitsError (Some "File not found"))) s in
  get (fitsData s') (key "2022" Samples.fileB) = None /\
  fitsCalls (key "2022" Samples.fileB) (fetchFITSData "2022" Samples.fileB s')
  = 1 + fitsCalls (key "2022" Samples.fileB) s'.
Proof.
  exact (proj2 (proj2 (proj2 cache_entry_iff_fetched))
           (run (Samples.browsing2022 ++ [ToggleItem "2022" Samples.fileB])
                initial)
           2 "2022" Samples.fileB (FitsError (Some "File not found"))
           eq_refl eq_refl
           (or_intror (ex_intro _ (Some "File not found") eq_refl))
           eq_refl).
Defined.

(** *** Failure isolation *)

Lemma isAwaited_settled (id id' : nat) (s : AppState) :
  id <> id' -> isAwaited id' (settled id s) = isAwaited id' s.
Proof.
  intros Hne. unfold isAwaited, settled. cbn [awaiting].
  induction (awaiting s) as [|i l IH]; simpl; [reflexivity|].
  destruct (Nat.eqb_spec i id) as [->|Hi]; simpl.
  - destruct (Nat.eqb_spec id' id); [now subst|exact IH].
  - now rewrite IH.
Qed.

Lemma error_view_inert (s : AppState) (message : string) :
  render s = ErrorView message ->
  forall y f, step (ToggleItem y f) s = s /\ step (ClickYear y) s = s.
Proof.
  intros Hr y f. unfold step, hasRow, hasYearButton. rewrite Hr.
  now destruct (crashed s).
Qed.

(** C5, as the code has it.  When the fetch of file [a] succeeds and the
    fetch of file [b] of the same year is answered with an application
    error, the record of [a] is stored, every other key reads as before,
    [b] gets no entry, and the aggregation over the cache for that year
    includes the record of [a]; the render after either completion does not
    throw, provided the year list and the file lists the App holds render
    without an exception; the error of [b] is put in [error], and when it is
    a non-empty message the App renders that message alone: the dashboard,
    with its aggregate, is not shown, and no button is left to select a year
    or to fetch another file. *)
Theorem failure_isolation (s : AppState) (ida idb : nat) (y a b : string)
    (da : FITS.FITSData) (e : option string) :
  crashed s = false ->
  ida <> idb ->
  isAwaited ida s = true -> isAwaited idb s = true ->
  nth_error (calls s) ida = Some (GetFitsData y a) ->
  nth_error (calls s) idb = Some (GetFitsData y b) ->
  key y a <> key y b ->
  get (fitsData s) (key y b) = None ->
  let s' := run [Settle ida (FitsReply da); Settle idb (FitsError e)] s in
  get (fitsData s') (key y a) = Some da /\
  (forall k, k <> key y a -> get (fitsData s') k = get (fitsData s) k) /\
  ~ In (key y b) (keys (fitsData s')) /\
  In da (Stats.dataArray y (fitsData s')) /\
  (renderDashboard s <> Crashed ->
   crashed (step (Settle ida (FitsReply da)) s) = false /\
   crashed s' = false) /\
  error s' = e /\
  (forall message,
      e = Some message -> message <> EmptyString ->
      render s' = ErrorView message /\
      forall y' f', step (ToggleItem y' f') s' = s' /\
                    step (ClickYear y') s' = s').
Proof.
  intros Hc Hid Ha Hb Hna Hnb Hk Hkb s'.
  set (s1 := step (Settle ida (FitsReply da)) s).
  assert (E1 : s1 = setLoading false
                      (setFitsData (fun prev => set prev (key y a) da)
                                   (settled ida s)))
    by (unfold s1; now rewrite (settle_fits s ida y a _ Hc Ha Hna)).
  assert (Hc1 : crashed s1 = false)
    by (rewrite <- Hc; apply crashed_ext; rewrite E1; reflexivity).
  assert (Hb1 : isAwaited idb s1 = true).
  { rewrite E1. rewrite <- Hb. apply (isAwaited_settled ida idb s Hid). }
  assert (Hnb1 : nth_error (calls s1) idb = Some (GetFitsData y b))
    by (rewrite E1; exact Hnb).
  assert (E2 : s' = setLoading false (setError e (settled idb s1))).
  { unfold s', run. cbn [fold_left]. fold s1.
    now rewrite (settle_fits s1 idb y b _ Hc1 Hb1 Hnb1). }
  assert (F : fitsData s' = set (fitsData s) (key y a) da)
    by (rewrite E2, E1; reflexivity).
  assert (Ga : get (fitsData s') (key y a) = Some da)
    by (rewrite F; apply get_set_same).
  assert (He : error s' = e) by (rewrite E2; reflexivity).
  split; [exact Ga|].
  split; [intros k Hne; rewrite F; apply get_set_other; congruence|].
  split.
  { apply get_none_keys. rewrite F, get_set_other by exact Hk. exact Hkb. }
  split.
  { apply StatsFacts.dataArray_in. exists (key y a). split.
    - now apply get_in.
    - apply startsWith_app. }
  split.
  { intros Hd. split; [exact Hc1|].
    assert (Hd' : renderDashboard s' <> Crashed).
    { intros Hx. apply Hd.
      apply (renderDashboard_crashed s' s); [| |exact Hx];
        rewrite E2, E1; reflexivity. }
    unfold crashed, render.
    destruct (error s') as [m|]; [destruct (truthy (Some m)); [reflexivity|]|];
      destruct (renderDashboard s'); try reflexivity; now contradiction Hd'. }
  split; [exact He|].
  intros message Hm Hne.
  assert (Hr : render s' = ErrorView message).
  { apply error_view; [now rewrite He|].
    simpl. destruct (String.eqb_spec message EmptyString); [contradiction|reflexivity]. }
  split; [exact Hr|]. exact (error_view_inert s' message Hr).
Qed.

Lemma failure_isolation_witness :
  let s := run (Samples.browsing2022 ++
                [ToggleItem "2022" Samples.fileA;
                 ToggleItem "2022" Samples.fileB]) initial in
  let s' := run [Settle 2 (FitsReply Samples.recordA);
                 Settle 3 (FitsError (Some "File not found"))] s in
  get (fitsData s') (key "2022" Samples.fileA) = Some Samples.recordA.
Proof.
  intros s s'.
  refine (proj1 (failure_isolation s 2 3 "2022" Samples.fileA Samples.fileB
                   Samples.recordA (Some "File not found")
                   _ _ _ _ _ _ _ _)).
  - vm_compute. reflexivity.
  - lia.
  - vm_compute. reflexivity.
  - vm_compute. reflexivity.
  - vm_compute. reflexivity.
  - vm_compute. reflexivity.
  - apply String.eqb_neq. vm_compute. reflexivity.
  - vm_compute. reflexivity.
Defined.

(** C5 fails as stated: after the record of [fileA] has arrived and the
    fetch of [fileB] has been refused, the App shows the error message and
    nothing else, although the record of [fileA] is in the cache; the year
    buttons and the rows are gone. *)
Lemma failed_fetch_replaces_dashboard :
  let s := run Samples.oneFails initial in
  get (fitsData s) (key "2022" Samples.fileA) = Some Samples.recordA /\
  render s = ErrorView "File not found" /\
  step (ClickYear "2023") s = s /\
  step (ToggleItem "2022" Samples.fileB) s = s.
Proof. vm_compute. repeat split. Qed.

(** The cache of the year-filter example arises in the App: after
    [visitsLongerYear] the panel of 2022 is on screen, its [EnhancedStats]
    gets the year 2022 and a cache whose only record belongs to 20221, and
    it does not render [null]. *)
Lemma longer_year_on_screen :
  let s := run Samples.visitsLongerYear initial in
  selectedYear s = Some "2022" /\
  fitsData s = Samples.otherYearCache /\
  hasYearButton s "2022" = true /\
  Stats.entriesOfYear "2022" (fitsData s) = [] /\
  Stats.dataArray "2022" (fitsData s) = [Samples.recordA].
Proof. vm_compute. repeat split. Qed.

(** *** The file catalog *)

(** A transport failure leaves the catalog alone and reports the error. *)
Lemma file_list_threw (s : AppState) (id : nat) (y : string) :
  crashed s = false -> isAwaited id s = true ->
  nth_error (calls s) id = Some (GetFiles y) ->
  let s' := step (Settle id Threw) s in
  files s' = files s /\
  error s' = Some ("Failed to fetch files for year " ++ y).
Proof.
  intros Hc Ha Hn. cbv zeta. unfold step. rewrite Hc, Ha, Hn.
  split; reflexivity.
Qed.

(** Whatever body arrives is stored under the year, array or not, 2xx or
    not. *)
Lemma file_list_reply_stored (s : AppState) (id : nat) (y : string)
    (ok : bool) (data : Listing) :
  crashed s = false -> isAwaited id s = true ->
  nth_error (calls s) id = Some (GetFiles y) ->
  let s' := step (Settle id (ListingReply ok data)) s in
  get (files s') y = Some data /\ error s' = error s.
Proof.
  intros Hc Ha Hn. cbv zeta. unfold step. rewrite Hc, Ha, Hn.
  split; [apply get_set_same|reflexivity].
Qed.

(** C8, at the failing input.  The file list of 2022 is answered with an
    error status and the body [{ error: "Year not found" }]: the body is
    stored as the catalog entry of 2022, no error is reported, and the next
    render throws on [files.map]. *)
Theorem file_list_error_is_stored :
  let s := run Samples.fileListFails initial in
  get (files s) "2022" = Some (NotAList (Some "Year not found")) /\
  error s = None /\
  render s = Crashed.
Proof. vm_compute. repeat split. Qed.

End DashboardFacts.

(* ================================================================== *)
(** ** More on formatDateTime and on cache keys *)
(* ================================================================== *)

Module FormatEdge.
Import JSString JSStringFacts JSObject Format Dashboard.

Lemma split_without (c : ascii) (s : string) :
  occurs c s = false -> split c s = [s].
Proof.
  induction s as [|d s IH]; simpl; [reflexivity|].
  intros H. apply orb_false_iff in H as [Hd Hs].
  now rewrite Hd, (IH Hs).
Qed.

Lemma split_with (c : ascii) (s : string) :
  occurs c s = true -> exists a b segs, split c s = a :: b :: segs.
Proof.
  induction s as [|d s IH]; simpl; [discriminate|].
  destruct (Ascii.eqb d c) eqn:Hd; simpl.
  - intros _. destruct (split c s) as [|b segs] eqn:E.
    + now destruct (split_nonempty c s).
    + now exists EmptyString, b, segs.
  - intros H. destruct (IH H) as (a & b & segs & E).
    rewrite E. now exists (String d a), b, segs.
Qed.

Lemma second_field (c : ascii) (s : string) :
  index (split c s) 1 = None <-> occurs c s = false.
Proof.
  destruct (occurs c s) eqn:H.
  - destruct (split_with c s H) as (a & b & segs & E). rewrite E. simpl.
    split; discriminate.
  - rewrite (split_without c s H). simpl. split; reflexivity.
Qed.

(** X1. [formatDateTime] throws exactly on the names that lack a dot or
    lack an underscore; every other name gets a label, well-formed or
    not. *)
Theorem formatDateTime_throws_iff (filename : string) :
  formatDateTime filename = None <->
  occurs "." filename = false \/ occurs "_" filename = false.
Proof.
  unfold formatDateTime.
  pose proof (second_field "." filename) as Hdot.
  pose proof (second_field "_" filename) as Hus.
  destruct (index (split "." filename) 1) as [dotField|].
  - destruct (index (split "_" filename) 1) as [uscoreField|].
    + cbn [bind].
      destruct (split_before "_" dotField) as [segs E]. rewrite E.
      cbn [index nth_error bind]. cbv zeta.
      split; [intros H; discriminate H|].
      intros [H|H]; [apply Hdot in H | apply Hus in H]; discriminate H.
    + cbn [bind].
      destruct (split_before "_" dotField) as [segs E]. rewrite E.
      cbn [index nth_error bind].
      split; [|reflexivity]. intros _. right. now apply Hus.
  - cbn [bind]. split; [|reflexivity]. intros _. left. now apply Hdot.
Qed.

Lemma append_cancel (a b c : string) : a ++ b = a ++ c -> b = c.
Proof.
  induction a as [|d a IH]; simpl; [auto|].
  intros H. injection H as H. now apply IH.
Qed.

(** X3. Two files get the same cache key only when they are the same file
    of the same year, as long as years have no slash.  (A year with a slash
    can collide: the key of year [a/b], file [c] is the key of year [a], file
    [b/c].) *)
Theorem key_injective (y y' f f' : string) :
  occurs "/" y = false -> occurs "/" y' = false ->
  key y f = key y' f' -> y = y' /\ f = f'.
Proof.
  intros Hy Hy' E. unfold key in E.
  change (y ++ String "/" f = y' ++ String "/" f') in E.
  assert (Eyear : y = y').
  { rewrite <- (before_at_first "/" y f Hy), E.
    now apply before_at_first. }
  subst y'. split; [reflexivity|].
  apply append_cancel in E. now injection E.
Qed.

Lemma key_injective_witness :
  "2022" = "2022" /\ Samples.fileA = "AIA.20221023_084600.0094.synoptic.fits".
Proof.
  exact (key_injective "2022" "2022" Samples.fileA
           "AIA.20221023_084600.0094.synoptic.fits"
           eq_refl eq_refl eq_refl).
Defined.

Lemma key_collision : key "a/b" "c" = key "a" "b/c".
Proof. reflexivity. Qed.

End FormatEdge.

(* ================================================================== *)
(** ** More on the summary and the series *)
(* ================================================================== *)

Module SummaryFacts.
Import JSString JSStringFacts JSObject Stats Kinds.

Lemma nonempty_map {A B : Type} (f : A -> B) (xs : list A) :
  xs <> [] -> map f xs <> [].
Proof. destruct xs; [contradiction|discriminate]. Qed.

Lemma in_nonempty {A : Type} (x : A) (xs : list A) : In x xs -> xs <> [].
Proof. destruct xs; [intros []|discriminate]. Qed.

Lemma max_from_nan (xs : list Num.number) :
  forall h, Exists (fun x => Num.is_nan x = true) xs ->
            Num.max_from h xs = Num.NaN.
Proof.
  induction xs as [|x xs IH]; intros h H; [inversion H|].
  cbn [Num.max_from]. destruct (Num.is_nan x) eqn:Hx; [reflexivity|].
  inversion H as [? ? Hx'|? ? Hxs]; subst; [congruence|].
  now apply IH.
Qed.

Lemma min_from_nan (xs : list Num.number) :
  forall l, Exists (fun x => Num.is_nan x = true) xs ->
            Num.min_from l xs = Num.NaN.
Proof.
  induction xs as [|x xs IH]; intros l H; [inversion H|].
  cbn [Num.min_from]. destruct (Num.is_nan x) eqn:Hx; [reflexivity|].
  inversion H as [? ? Hx'|? ? Hxs]; subst; [congruence|].
  now apply IH.
Qed.

(** X17. When every statistic is a number and some record has its minimum
    below or at its maximum, the summary has its least minimum below or at
    its greatest maximum. *)
Theorem summary_min_le_max (data : list FITS.FITSData) (item : FITS.FITSData) :
  In item data ->
  Num.leb (FITS.min (FITS.stats item)) (FITS.max (FITS.stats item)) = true ->
  Num.no_nan (maxes data) -> Num.no_nan (mins data) ->
  Num.leb (minIntensity (DataSummary data)) (maxIntensity (DataSummary data))
  = true.
Proof.
  intros Hin Hle Hmax Hmin.
  pose proof (in_nonempty item data Hin) as Hne.
  destruct (NumFacts.Math_max_maximum (maxes data)
              (nonempty_map _ data Hne) Hmax) as [_ Hup].
  destruct (NumFacts.Math_min_minimum (mins data)
              (nonempty_map _ data Hne) Hmin) as [_ Hlow].
  unfold DataSummary. cbn [minIntensity maxIntensity].
  fold (maxes data). fold (mins data).
  apply (NumFacts.leb_trans _ (FITS.min (FITS.stats item))).
  - apply Hlow. unfold mins.
    now apply (in_map (fun i => FITS.min (FITS.stats i))).
  - apply (NumFacts.leb_trans _ (FITS.max (FITS.stats item)) _ Hle).
    apply Hup. unfold maxes.
    now apply (in_map (fun i => FITS.max (FITS.stats i))).
Qed.

Lemma summary_min_le_max_witness :
  Num.leb
    (minIntensity (DataSummary [Samples.recordA; Samples.recordB]))
    (maxIntensity (DataSummary [Samples.recordA; Samples.recordB])) = true.
Proof.
  apply (summary_min_le_max [Samples.recordA; Samples.recordB] Samples.recordA).
  - now left.
  - vm_compute. reflexivity.
  - repeat constructor.
  - repeat constructor.
Defined.

(** X18. The count, the maximum and the minimum of the summary do not depend
    on the order in which the records were stored. *)
Theorem summary_order_independent (data data' : list FITS.FITSData) :
  Permutation data data' ->
  data <> [] -> Num.no_nan (maxes data) -> Num.no_nan (mins data) ->
  totalObservations (DataSummary data') = totalObservations (DataSummary data) /\
  sameNumber (maxIntensity (DataSummary data)) (maxIntensity (DataSummary data')) /\
  sameNumber (minIntensity (DataSummary data)) (minIntensity (DataSummary data')).
Proof.
  intros Hp Hne Hmax Hmin.
  assert (Hne' : data' <> []).
  { intros ->. apply Permutation_sym, Permutation_nil in Hp. contradiction. }
  assert (Pmax : Permutation (maxes data) (maxes data'))
    by now apply Permutation_map.
  assert (Pmin : Permutation (mins data) (mins data'))
    by now apply Permutation_map.
  assert (Hmax' : Num.no_nan (maxes data'))
    by (unfold Num.no_nan; now rewrite <- Pmax).
  assert (Hmin' : Num.no_nan (mins data'))
    by (unfold Num.no_nan; now rewrite <- Pmin).
  destruct (NumFacts.Math_max_maximum _ (nonempty_map _ data Hne) Hmax)
    as [M1 U1].
  destruct (NumFacts.Math_max_maximum _ (nonempty_map _ data' Hne') Hmax')
    as [M2 U2].
  destruct (NumFacts.Math_min_minimum _ (nonempty_map _ data Hne) Hmin)
    as [m1 L1].
  destruct (NumFacts.Math_min_minimum _ (nonempty_map _ data' Hne') Hmin')
    as [m2 L2].
  unfold DataSummary, sameNumber.
  cbn [totalObservations maxIntensity minIntensity].
  fold (maxes data) (maxes data') (mins data) (mins data').
  split; [symmetry; now apply Permutation_length|].
  split; split.
  - apply U2. now apply (Permutation_in _ Pmax).
  - apply U1. now apply (Permutation_in _ (Permutation_sym Pmax)).
  - apply L1. now apply (Permutation_in _ (Permutation_sym Pmin)).
  - apply L2. now apply (Permutation_in _ Pmin).
Qed.

Lemma summary_order_independent_witness :
  sameNumber
    (maxIntensity (DataSummary [Samples.recordA; Samples.recordB]))
    (maxIntensity (DataSummary [Samples.recordB; Samples.recordA])).
Proof.
  refine (proj1 (proj2
    (summary_order_independent [Samples.recordA; Samples.recordB]
       [Samples.recordB; Samples.recordA] _ _ _ _))).
  - apply perm_swap.
  - discriminate.
  - repeat constructor.
  - repeat constructor.
Defined.

(** The average does depend on the order: the sum is rounded at each step. *)
Lemma average_depends_on_order :
  let big := Samples.record 0 0 9007199254740992 0 in
  let one := Samples.record 0 0 1 0 in
  let neg := Samples.record 0 0 (-9007199254740992) 0 in
  averageIntensity (DataSummary [big; one; neg]) = Num.pos_zero /\
  averageIntensity (DataSummary [big; neg; one]) <> Num.pos_zero.
Proof. vm_compute. split; [reflexivity|discriminate]. Qed.

(** X19. One record whose maximum is [NaN] makes the maximum of the summary
    [NaN], whatever the other records hold; likewise for the minimum. *)
Theorem summary_nan_poisons (data : list FITS.FITSData) (item : FITS.FITSData) :
  In item data ->
  (Num.is_nan (FITS.max (FITS.stats item)) = true ->
   maxIntensity (DataSummary data) = Num.NaN) /\
  (Num.is_nan (FITS.min (FITS.stats item)) = true ->
   minIntensity (DataSummary data) = Num.NaN).
Proof.
  intros Hin. unfold DataSummary. cbn [maxIntensity minIntensity].
  split; intros Hn.
  - apply max_from_nan. apply Exists_exists.
    exists (FITS.max (FITS.stats item)). split; [|exact Hn].
    now apply (in_map (fun i => FITS.max (FITS.stats i))).
  - apply min_from_nan. apply Exists_exists.
    exists (FITS.min (FITS.stats item)). split; [|exact Hn].
    now apply (in_map (fun i => FITS.min (FITS.stats i))).
Qed.

Lemma summary_nan_poisons_witness :
  let bad := {| FITS.stats := {| FITS.min := Num.of_Z 0; FITS.max := Num.NaN;
                                 FITS.mean := Num.of_Z 1;
                                 FITS.stdev := Num.of_Z 1 |};
                FITS.histogram := "aGlzdA=="; FITS.image := "aW1n";
                FITS.observation_date := None |} in
  maxIntensity (DataSummary [Samples.recordA; bad; Samples.recordB]) = Num.NaN.
Proof.
  intros bad.
  refine (proj1 (summary_nan_poisons [Samples.recordA; bad; Samples.recordB]
                   bad _) _).
  - right. now left.
  - reflexivity.
Defined.

(** X20. Whenever [EnhancedStats] renders something, the chart has exactly
    as many points as the summary counts observations, at least one, and
    that number is the number of cache keys that start with the selected
    year. *)
Theorem series_matches_count (locale : string -> string) (year : string)
    (cache : obj FITS.FITSData) (summary : Summary) (series : list Point.t) :
  EnhancedStats locale year cache = Some (summary, series) ->
  List.length series = totalObservations summary /\
  0 < totalObservations summary /\
  totalObservations summary
  = List.length (filter (startsWith year) (keys cache)).
Proof.
  intros H. apply StatsFacts.EnhancedStats_some in H as (Hne & -> & ->).
  unfold StatsOverTime, DataSummary. cbn [totalObservations].
  rewrite length_map. split; [reflexivity|]. split.
  - destruct (dataArray year cache); [contradiction|simpl; lia].
  - unfold dataArray, entries, keys. rewrite length_map.
    clear Hne. induction cache as [|[k v] cache IH]; simpl; [reflexivity|].
    destruct (startsWith year k); simpl; now rewrite IH.
Qed.

Lemma series_matches_count_witness :
  List.length (StatsOverTime (fun s => s) [Samples.recordA])
  = totalObservations (DataSummary [Samples.recordA]).
Proof.
  exact (proj1 (series_matches_count (fun s => s) "2022"
                  (set empty (Dashboard.key "2022" Samples.fileA)
                       Samples.recordA)
                  (DataSummary [Samples.recordA])
                  (StatsOverTime (fun s => s) [Samples.recordA])
                  eq_refl)).
Defined.

End SummaryFacts.

(* ================================================================== *)
(** ** The open/closed flags *)
(* ================================================================== *)

Module OpenItemsFacts.
Import JSObject JSObjectFacts OpenItems.

Lemma isOpen_toggle (f g : string) (o : obj bool) :
  isOpen (toggleOpen f o) g
  = if String.eqb f g then negb (isOpen o g) else isOpen o g.
Proof.
  unfold toggleOpen, isOpen at 1.
  destruct (String.eqb_spec f g) as [->|Hne].
  - now rewrite get_set_same.
  - now rewrite (get_set_other o g f _ Hne).
Qed.

(** X16. A click on a row flips the flag of that row and of no other, a row
    never clicked is closed, and two clicks on a row leave every row as it
    was. *)
Theorem toggle_open_flips (f : string) (o : obj bool) :
  (forall g, isOpen empty g = false) /\
  (forall g, isOpen (toggleOpen f o) g
             = if String.eqb f g then negb (isOpen o g) else isOpen o g) /\
  (forall g, isOpen (toggleOpen f (toggleOpen f o)) g = isOpen o g).
Proof.
  split; [reflexivity|]. split; [intros g; apply isOpen_toggle|].
  intros g. rewrite !isOpen_toggle.
  destruct (String.eqb f g); [apply negb_involutive|reflexivity].
Qed.

End OpenItemsFacts.

(* ================================================================== *)
(** ** More on the App: year list, file lists, loading flag, errors *)
(* ================================================================== *)

Module AppFacts.
Import JSString JSStringFacts JSObject JSObjectFacts Dashboard DashboardFacts.
Import Kinds.

Lemma step_settle (s : AppState) (id : nat) (r : Request) (o : Outcome) :
  crashed s = false -> isAwaited id s = true ->
  nth_error (calls s) id = Some r ->
  step (Settle id o) s =
  match resume r o (settled id s) with
  | Some s' => s'
  | None => s
  end.
Proof. intros Hc Ha Hn. unfold step. now rewrite Hc, Ha, Hn. Qed.

Lemma traverse_in {A B : Type} (f : A -> option B) (xs : list A) :
  forall ys y, traverse f xs = Some ys -> In y ys ->
               exists x, In x xs /\ f x = Some y.
Proof.
  induction xs as [|x xs IH]; simpl; intros ys y H Hin.
  - injection H as <-. destruct Hin.
  - destruct (f x) as [b|] eqn:Ex; [|discriminate].
    destruct (traverse f xs) as [bs|] eqn:Et; [|discriminate].
    injection H as <-. destruct Hin as [<-|Hin].
    + exists x. split; [now left|exact Ex].
    + destruct (IH bs y eq_refl Hin) as [x0 [H0 E0]].
      exists x0. split; [now right|exact E0].
Qed.

Lemma renderYear_no_files (s : AppState) (year : string) :
  files s = empty ->
  (renderYear s year = None <-> isInherited year = true).
Proof.
  intros Hf. unfold renderYear, Accordion. rewrite Hf. cbn [get empty].
  destruct (isInherited year); split; intros H;
    (discriminate H || reflexivity).
Qed.

(** With no file list stored and no error, the render throws exactly when
    some listed year is named like a property of [Object.prototype]. *)
Lemma no_files_crash (s : AppState) (ys : list string) :
  files s = empty -> error s = None -> years s = Names ys ->
  crashed s = existsb isInherited ys.
Proof.
  intros Hf He Hy. unfold crashed, render, renderDashboard.
  rewrite He, Hy.
  destruct (traverse (renderYear s) ys) eqn:Et.
  - destruct (existsb isInherited ys) eqn:Ex; [|reflexivity].
    apply existsb_exists in Ex as [year [Hin Hy']].
    assert (Hn : traverse (renderYear s) ys = None).
    { apply traverse_is_none. exists year. split; [exact Hin|].
      now apply renderYear_no_files. }
    congruence.
  - apply traverse_is_none in Et as [year [Hin Hr]].
    symmetry. apply existsb_exists. exists year. split; [exact Hin|].
    now apply (renderYear_no_files s year Hf).
Qed.

(** A cache key has a slash, so it is never one of the inherited names:
    [fitsData[key]] is the stored record or [undefined]. *)
Lemma key_not_inherited (y f : string) : isInherited (key y f) = false.
Proof.
  assert (Hs : occurs "/" (key y f) = true).
  { unfold key. rewrite occurs_app. simpl. apply orb_true_r. }
  apply not_true_is_false. intros H. unfold isInherited in H.
  apply existsb_exists in H as [n [Hin Hn]].
  apply String.eqb_eq in Hn. rewrite Hn in Hs.
  unfold inheritedNames in Hin. simpl in Hin.
  repeat (destruct Hin as [<-|Hin]; [discriminate Hs|]).
  destruct Hin.
Qed.

Lemma crashed_frozen (s : AppState) (evs : list Event) :
  crashed s = true -> run evs s = s.
Proof.
  intros Hc. induction evs as [|e evs IH]; [reflexivity|].
  simpl. replace (step e s) with s by (unfold step; now rewrite Hc).
  exact IH.
Qed.

Lemma error_view_frozen (s : AppState) (message : string)
    (evs : list Event) :
  render s = ErrorView message -> awaiting s = [] -> run evs s = s.
Proof.
  intros Hr Ha. induction evs as [|e evs IH]; [reflexivity|].
  simpl. replace (step e s) with s; [exact IH|].
  destruct e as [y|y f|id o].
  - symmetry. apply (error_view_inert s message Hr y y).
  - symmetry. apply (error_view_inert s message Hr y f).
  - unfold step, isAwaited. rewrite Ha. simpl. now destruct (crashed s).
Qed.

Lemma setSelectedYear_calls (y : string) (s : AppState) :
  exists extra, calls (setSelectedYear y s) = (calls s ++ extra)%list /\
                List.length extra <= 1.
Proof.
  unfold setSelectedYear, fetchFilesForYear.
  destruct (isSelected s y).
  - exists []. rewrite app_nil_r. split; [reflexivity|simpl; lia].
  - destruct (truthy (Some y) && negb (crashed (writeSelectedYear (Some y) s))).
    + exists [GetFiles y]. split; [reflexivity|simpl; lia].
    + exists []. cbn [calls writeSelectedYear]. rewrite app_nil_r.
      split; [reflexivity|simpl; lia].
Qed.

Lemma setSelectedYear_error (y : string) (s : AppState) :
  error (setSelectedYear y s) = error s.
Proof.
  unfold setSelectedYear, fetchFilesForYear.
  destruct (isSelected s y); [reflexivity|].
  destruct (truthy (Some y) && negb (crashed (writeSelectedYear (Some y) s)));
    reflexivity.
Qed.

Lemma step_calls (e : Event) (s : AppState) :
  exists extra, calls (step e s) = (calls s ++ extra)%list /\
                List.length extra <= 1.
Proof.
  assert (Same : exists extra, calls s = (calls s ++ extra)%list /\
                               List.length extra <= 1).
  { exists []. rewrite app_nil_r. split; [reflexivity|simpl; lia]. }
  unfold step. destruct (crashed s); [exact Same|].
  destruct e as [y|y f|id o].
  - destruct (hasYearButton s y); [apply setSelectedYear_calls|exact Same].
  - destruct (hasRow s y f); [|exact Same].
    rewrite toggleItem_eq. unfold fetchFITSData.
    destruct (get (fitsData s) (key y f)); [exact Same|].
    exists [GetFitsData y f]. split; [reflexivity|simpl; lia].
  - destruct (isAwaited id s); [|exact Same].
    destruct (nth_error (calls s) id) as [r|]; [|exact Same].
    destruct r as [|year|year filename], o as [|ok data|data|err];
      cbn [resume]; try exact Same.
    destruct data as [[|first names]|err]; try exact Same.
    destruct (setSelectedYear_calls first
                (setYears (Names (first :: names)) (settled id s)))
      as [extra [E L]].
    exists extra. split; [exact E|exact L].
Qed.

Lemma step_error (e : Event) (s : AppState) :
  isFailure e = false -> error (step e s) = error s.
Proof.
  intros Hf. unfold step. destruct (crashed s); [reflexivity|].
  destruct e as [y|y f|id o].
  - destruct (hasYearButton s y); [apply setSelectedYear_error|reflexivity].
  - destruct (hasRow s y f); [|reflexivity].
    rewrite toggleItem_eq. unfold fetchFITSData.
    now destruct (get (fitsData s) (key y f)).
  - destruct (isAwaited id s); [|reflexivity].
    destruct (nth_error (calls s) id) as [r|]; [|reflexivity].
    destruct r as [|year|year filename], o as [|ok data|data|err];
      cbn [resume]; try reflexivity; try discriminate Hf.
    destruct data as [[|first names]|err]; try reflexivity.
    now rewrite setSelectedYear_error.
Qed.

Lemma fitsCalls_app (k : string) (s s' : AppState) (extra : list Request) :
  calls s' = (calls s ++ extra)%list -> fitsCalls k s <= fitsCalls k s'.
Proof.
  intros E. unfold fitsCalls. rewrite E, filter_app, List.length_app. lia.
Qed.

Lemma fitsCalls_in (k : string) (s : AppState) (id : nat) (r : Request) :
  nth_error (calls s) id = Some r -> isFitsCall k r = true ->
  1 <= fitsCalls k s.
Proof.
  intros Hn Hr. unfold fitsCalls.
  assert (Hin : In r (filter (isFitsCall k) (calls s))).
  { apply filter_In. split; [now apply (nth_error_In _ id)|exact Hr]. }
  destruct (filter (isFitsCall k) (calls s)); [destruct Hin|simpl; lia].
Qed.

(** *** The year list *)

(** X4. When the year list arrives as a non-empty array, it is stored and
    its first year becomes the selected year.  Exactly one call then goes
    out, for the file list of that first year, unless that year is the empty
    string or some listed year is named like a property of
    [Object.prototype]: then the render throws before the effect runs, and
    no call goes out. *)
Theorem years_reply_selects_first (ok : bool) (y : string) (ys : list string) :
  let s := step (Settle 0 (ListingReply ok (Names (y :: ys)))) initial in
  let fetches := truthy (Some y) && negb (existsb isInherited (y :: ys)) in
  years s = Names (y :: ys) /\
  selectedYear s = Some y /\
  calls s = (if fetches then [GetYears; GetFiles y] else [GetYears]) /\
  awaiting s = (if fetches then [1] else []) /\
  error s = None /\
  crashed s = existsb isInherited (y :: ys).
Proof.
  cbv zeta.
  rewrite (step_settle initial 0 GetYears _ eq_refl eq_refl eq_refl).
  cbn [resume]. unfold setSelectedYear.
  set (s0 := setYears (Names (y :: ys)) (settled 0 initial)).
  assert (Hc : crashed (writeSelectedYear (Some y) s0)
               = existsb isInherited (y :: ys))
    by (apply (no_files_crash _ (y :: ys)); reflexivity).
  change (isSelected s0 y) with false. cbv iota. rewrite Hc.
  destruct (truthy (Some y) && negb (existsb isInherited (y :: ys))) eqn:Hf.
  - repeat split. unfold fetchFilesForYear.
    rewrite <- Hc. apply crashed_ext; reflexivity.
  - repeat split. exact Hc.
Qed.

(** A year list with [constructor] in it: the year 2022 is selected, the
    dashboard is gone, and the file list of 2022 is never asked for. *)
Lemma inherited_year_crashes :
  let s := step (Settle 0 (ListingReply true (Names ["2022"; "constructor"])))
                initial in
  selectedYear s = Some "2022" /\ render s = Crashed /\ calls s = [GetYears].
Proof. vm_compute. repeat split. Qed.

(** X5. [fetchYears] takes any JSON body for the year list.  When the body
    is an object and not an array, nothing is reported in [error], the next
    render throws on [years.map], and from then on no event changes
    anything. *)
Theorem years_error_body_crashes (ok : bool) (e : option string) :
  let s := step (Settle 0 (ListingReply ok (NotAList e))) initial in
  years s = NotAList e /\
  error s = None /\ render s = Crashed /\ forall evs, run evs s = s.
Proof.
  cbv zeta.
  rewrite (step_settle initial 0 GetYears _ eq_refl eq_refl eq_refl).
  cbn [resume]. split; [reflexivity|]. split; [reflexivity|].
  split; [reflexivity|].
  intros evs. now apply crashed_frozen.
Qed.

(** X6. When the year list cannot be fetched, the App shows
    ["Failed to fetch years"] and stays there: no call is awaited, no button
    is on screen, and no event changes the state any more. *)
Theorem years_failure_is_final :
  let s := step (Settle 0 Threw) initial in
  render s = ErrorView "Failed to fetch years" /\
  awaiting s = [] /\
  forall evs, run evs s = s /\ calls (run evs s) = [GetYears].
Proof.
  cbv zeta.
  rewrite (step_settle initial 0 GetYears _ eq_refl eq_refl eq_refl).
  cbn [resume].
  set (s := setError (Some "Failed to fetch years") (settled 0 initial)).
  split; [reflexivity|]. split; [reflexivity|].
  intros evs.
  rewrite (error_view_frozen s "Failed to fetch years" evs eq_refl eq_refl).
  split; reflexivity.
Qed.

(** X7. A click on the button of a year that is not the selected one
    selects it and dispatches one call for its file list, whether or not the
    catalog already holds that list; the catalog and the cache are left as
    they are. *)
Theorem click_year_refetches (s : AppState) (y : string) :
  crashed s = false -> hasYearButton s y = true ->
  isSelected s y = false -> y <> EmptyString ->
  let s' := step (ClickYear y) s in
  selectedYear s' = Some y /\
  calls s' = (calls s ++ [GetFiles y])%list /\
  files s' = files s /\ fitsData s' = fitsData s.
Proof.
  intros Hc Hb Hs Hy. cbv zeta.
  unfold step. rewrite Hc, Hb. unfold setSelectedYear. rewrite Hs.
  assert (Hc1 : crashed (writeSelectedYear (Some y) s) = false)
    by (rewrite <- Hc; apply crashed_ext; reflexivity).
  rewrite Hc1.
  assert (Ht : truthy (Some y) = true)
    by (simpl; destruct (String.eqb_spec y EmptyString);
        [contradiction|reflexivity]).
  rewrite Ht. repeat split.
Qed.

Lemma click_year_refetches_witness :
  let s := run (Samples.browsing2022 ++
                [ClickYear "2023";
                 Settle 2 (ListingReply true (Names []))]) initial in
  get (files s) "2022" <> None /\
  calls (step (ClickYear "2022") s) = (calls s ++ [GetFiles "2022"])%list.
Proof.
  intros s. split; [vm_compute; discriminate|].
  refine (proj1 (proj2 (click_year_refetches s "2022" _ _ _ _))).
  - vm_compute. reflexivity.
  - vm_compute. reflexivity.
  - vm_compute. reflexivity.
  - discriminate.
Defined.

(** *** The file lists *)

(** X8. The body of a file-list reply is stored under its year as it came,
    in the order it came; the lists of the other years, the cache, the error
    and the call log are untouched. *)
Theorem files_reply_stored (s : AppState) (id : nat) (y : string)
    (ok : bool) (data : Listing) :
  crashed s = false -> isAwaited id s = true ->
  nth_error (calls s) id = Some (GetFiles y) ->
  let s' := step (Settle id (ListingReply ok data)) s in
  get (files s') y = Some data /\
  (forall y', y' <> y -> get (files s') y' = get (files s) y') /\
  fitsData s' = fitsData s /\ error s' = error s /\ calls s' = calls s.
Proof.
  intros Hc Ha Hn. cbv zeta. rewrite (step_settle s id _ _ Hc Ha Hn).
  cbn [resume]. split; [apply get_set_same|].
  split; [|repeat split].
  intros y' Hne. apply get_set_other. congruence.
Qed.

Lemma files_reply_stored_witness :
  let s := step (Settle 0 (ListingReply true (Names ["2022"; "2023"])))
                initial in
  get (files (step (Settle 1 (ListingReply true
                                (Names [Samples.fileB; Samples.fileA]))) s))
      "2022"
  = Some (Names [Samples.fileB; Samples.fileA]).
Proof.
  intros s.
  refine (proj1 (files_reply_stored s 1 "2022" true
                   (Names [Samples.fileB; Samples.fileA]) _ _ _)).
  - vm_compute. reflexivity.
  - vm_compute. reflexivity.
  - vm_compute. reflexivity.
Defined.

(** X2. One file name without a dot or without an underscore in the list
    of any listed year makes the render throw, so that nothing of the
    dashboard is left. *)
Theorem bad_name_crashes (s : AppState) (ys names : list string)
    (year name : string) :
  truthy (error s) = false ->
  years s = Names ys -> In year ys ->
  get (files s) year = Some (Names names) -> In name names ->
  Format.formatDateTime name = None ->
  render s = Crashed /\ forall evs, run evs s = s.
Proof.
  intros He Hy Hin Hf Hname Hfmt.
  assert (Hr : render s = Crashed).
  { unfold render.
    assert (Hd : renderDashboard s = Crashed).
    { unfold renderDashboard. rewrite Hy.
      assert (Ht : traverse (renderYear s) ys = None).
      { apply traverse_is_none. exists year. split; [exact Hin|].
        unfold renderYear, Accordion. rewrite Hf.
        assert (Hrows : traverse (renderRow s year) names = None).
        { apply traverse_is_none. exists name. split; [exact Hname|].
          unfold renderRow. now rewrite Hfmt. }
        now rewrite Hrows. }
      now rewrite Ht. }
    destruct (error s) as [m|]; [|exact Hd].
    now rewrite He. }
  split; [exact Hr|].
  intros evs. apply crashed_frozen. unfold crashed. now rewrite Hr.
Qed.

Lemma bad_name_crashes_witness :
  let s := run [Settle 0 (ListingReply true (Names ["2022"]));
                Settle 1 (ListingReply true (Names [Samples.fileA; "README"]))]
               initial in
  render s = Crashed.
Proof.
  intros s.
  refine (proj1 (bad_name_crashes s ["2022"] [Samples.fileA; "README"]
                   "2022" "README" _ _ _ _ _ _)).
  - vm_compute. reflexivity.
  - vm_compute. reflexivity.
  - now left.
  - vm_compute. reflexivity.
  - right. now left.
  - vm_compute. reflexivity.
Defined.

(** *** The loading flag *)

(** X9. While [loading] is set, every row of every year shows the loading
    text, also the rows whose record is stored. *)
Theorem loading_hides_rows (s : AppState) (year : string) :
  loading s = true ->
  match Accordion s year with
  | Some rs => Forall (fun r => body r = LoadingText) rs
  | None => True
  end.
Proof.
  intros Hl. unfold Accordion.
  destruct (get (files s) year) as [[names|e]|];
    [|exact I|destruct (isInherited year); [exact I|constructor]].
  destruct (traverse (renderRow s year) names) as [rs|] eqn:Et; [|exact I].
  apply Forall_forall. intros r Hin.
  destruct (traverse_in _ _ _ _ Et Hin) as [name [_ Hr]].
  unfold renderRow in Hr.
  destruct (Format.formatDateTime name); [|discriminate].
  injection Hr as <-. cbn [body]. now rewrite Hl.
Qed.

Lemma loading_hides_rows_witness :
  let s := run (Samples.browsing2022 ++
                [ToggleItem "2022" Samples.fileA;
                 Settle 2 (FitsReply Samples.recordA);
                 ToggleItem "2022" Samples.fileB]) initial in
  get (fitsData s) (key "2022" Samples.fileA) = Some Samples.recordA /\
  match Accordion s "2022" with
  | Some rs => Forall (fun r => body r = LoadingText) rs
  | None => True
  end.
Proof.
  intros s. split; [vm_compute; reflexivity|].
  apply (loading_hides_rows s "2022"). vm_compute. reflexivity.
Defined.

Lemma awaited_in (id : nat) (s : AppState) :
  isAwaited id s = true -> In id (awaiting s).
Proof.
  unfold isAwaited. intros H.
  apply existsb_exists in H as [x [Hin Hx]].
  apply Nat.eqb_eq in Hx. now subst.
Qed.

(** X10. The completion of one FITS fetch, successful or not, clears
    [loading] although another FITS fetch is still in flight. *)
Theorem completion_clears_loading (s : AppState) (id id' : nat)
    (y f y' f' : string) (o : Outcome) :
  crashed s = false ->
  awaitsFits s id y f -> awaitsFits s id' y' f' -> id <> id' ->
  (forall ok data, o <> ListingReply ok data) ->
  let s' := step (Settle id o) s in
  loading s' = false /\ inFlight (key y' f') s' = true.
Proof.
  intros Hc [Ha Hn] [Ha' Hn'] Hid Ho. cbv zeta.
  rewrite (settle_fits s id y f o Hc Ha Hn).
  assert (Hfl : inFlight (key y' f') (settled id s) = true).
  { unfold inFlight, settled. cbn [awaiting calls].
    apply existsb_exists. exists id'. split.
    - apply filter_In. split; [now apply awaited_in|].
      apply negb_true_iff. apply Nat.eqb_neq. congruence.
    - rewrite Hn'. simpl. apply String.eqb_refl. }
  destruct o as [|ok data|data|err];
    [| exfalso; now apply (Ho ok data) | |]; split;
    solve [reflexivity | exact Hfl].
Qed.

Lemma completion_clears_loading_witness :
  let s := run (Samples.browsing2022 ++
                [ToggleItem "2022" Samples.fileA;
                 ToggleItem "2022" Samples.fileB]) initial in
  let s' := step (Settle 2 (FitsReply Samples.recordA)) s in
  loading s' = false /\ inFlight (key "2022" Samples.fileB) s' = true.
Proof.
  intros s.
  refine (completion_clears_loading s 2 3 "2022" Samples.fileA
            "2022" Samples.fileB (FitsReply Samples.recordA) _ _ _ _ _).
  - vm_compute. reflexivity.
  - split; vm_compute; reflexivity.
  - split; vm_compute; reflexivity.
  - lia.
  - discriminate.
Defined.

(** *** The error *)

(** X11. Only a failure writes [error]: along events that are user actions
    and successful replies, [error] keeps its value, so an error message on
    display stays on display. *)
Theorem error_only_set_by_failures (evs : list Event) (s : AppState) :
  Forall (fun e => isFailure e = false) evs ->
  error (run evs s) = error s /\
  (forall message, error s = Some message -> message <> EmptyString ->
                   render (run evs s) = ErrorView message).
Proof.
  intros H.
  assert (He : error (run evs s) = error s).
  { revert s. induction H as [|e evs Hf _ IH]; intros s; [reflexivity|].
    simpl. fold (run evs (step e s)). now rewrite IH, step_error. }
  split; [exact He|].
  intros message Hm Hne. apply error_view; [now rewrite He|].
  simpl. destruct (String.eqb_spec message EmptyString);
    [contradiction|reflexivity].
Qed.

Lemma error_only_set_by_failures_witness :
  let s := run Samples.oneFails initial in
  error (run [Settle 2 (FitsReply Samples.recordA); ClickYear "2023"] s)
  = error s.
Proof.
  intros s.
  refine (proj1 (error_only_set_by_failures
                   [Settle 2 (FitsReply Samples.recordA); ClickYear "2023"]
                   s _)).
  repeat constructor.
Defined.

(** X12. A refusal of the FITS endpoint whose body has no [error] field is
    not reported: [error] becomes [undefined], which also takes an earlier
    message off the screen; nothing is stored. *)
Theorem errorless_failure_is_silent (s : AppState) (id : nat) (y f : string) :
  crashed s = false -> awaitsFits s id y f ->
  let s' := step (Settle id (FitsError None)) s in
  error s' = None /\ fitsData s' = fitsData s /\ loading s' = false /\
  forall message, render s' <> ErrorView message.
Proof.
  intros Hc [Ha Hn]. cbv zeta.
  rewrite (settle_fits s id y f _ Hc Ha Hn).
  repeat split. intros message. unfold render. cbn [error setLoading setError].
  unfold renderDashboard.
  destruct (years _) as [ys|e]; [|discriminate].
  destruct (traverse _ ys); discriminate.
Qed.

Lemma errorless_failure_is_silent_witness :
  let s := run (Samples.browsing2022 ++
                [ToggleItem "2022" Samples.fileA;
                 ToggleItem "2022" Samples.fileB;
                 Settle 2 (FitsError (Some "File not found"))]) initial in
  render s = ErrorView "File not found" /\
  error (step (Settle 3 (FitsError None)) s) = None.
Proof.
  intros s. split; [vm_compute; reflexivity|].
  refine (proj1 (errorless_failure_is_silent s 3 "2022" Samples.fileB _ _)).
  - vm_compute. reflexivity.
  - split; vm_compute; reflexivity.
Defined.

(** *** A record that arrives *)

(** X13. When a FITS fetch succeeds, its record is stored under the key of
    its file, is part of the aggregation for its year, and, [loading] being
    cleared, is what the row of the file displays; the reply does not touch
    [error]. *)
Theorem loaded_record_shown (s : AppState) (id : nat) (y f time : string)
    (data : FITS.FITSData) :
  crashed s = false -> awaitsFits s id y f ->
  Format.formatDateTime f = Some time ->
  let s' := step (Settle id (FitsReply data)) s in
  get (fitsData s') (key y f) = Some data /\
  In data (Stats.dataArray y (fitsData s')) /\
  renderRow s' y f
  = Some {| rowFilename := f; observationTime := time; body := Display data |} /\
  error s' = error s.
Proof.
  intros Hc [Ha Hn] Ht. cbv zeta.
  rewrite (settle_fits s id y f _ Hc Ha Hn).
  assert (Hg : get (set (fitsData s) (key y f) data) (key y f) = Some data)
    by apply get_set_same.
  split; [exact Hg|]. split.
  - apply StatsFacts.dataArray_in. exists (key y f).
    split; [now apply get_in | apply startsWith_app].
  - split; [|reflexivity].
    unfold renderRow. rewrite Ht.
    cbn [loading setLoading fitsData setFitsData settled].
    now rewrite Hg.
Qed.

Lemma loaded_record_shown_witness :
  let s := run (Samples.browsing2022 ++ [ToggleItem "2022" Samples.fileA])
               initial in
  let s' := step (Settle 2 (FitsReply Samples.recordA)) s in
  In Samples.recordA (Stats.dataArray "2022" (fitsData s')).
Proof.
  intros s.
  refine (proj1 (proj2 (loaded_record_shown s 2 "2022" Samples.fileA
                          "23/10/2022 08:46" Samples.recordA _ _ _))).
  - vm_compute. reflexivity.
  - split; vm_compute; reflexivity.
  - vm_compute. reflexivity.
Defined.

(** *** The call log *)

(** X15. The call log only grows, and an event adds at most one call to
    it. *)
Theorem calls_append_only (evs : list Event) (s : AppState) :
  exists extra, calls (run evs s) = (calls s ++ extra)%list /\
                List.length extra <= List.length evs.
Proof.
  revert s. induction evs as [|e evs IH]; intros s.
  - exists []. rewrite app_nil_r. split; [reflexivity|simpl; lia].
  - simpl. fold (run evs (step e s)).
    destruct (step_calls e s) as [x [Ex Lx]].
    destruct (IH (step e s)) as [xs [Exs Lxs]].
    exists (x ++ xs)%list. rewrite Exs, Ex, <- app_assoc.
    split; [reflexivity|]. rewrite List.length_app. simpl. lia.
Qed.

Lemma requested_step (e : Event) (s : AppState) :
  (forall k, get (fitsData s) k <> None -> 1 <= fitsCalls k s) ->
  forall k, get (fitsData (step e s)) k <> None -> 1 <= fitsCalls k (step e s).
Proof.
  intros Inv k Hk.
  destruct (step_calls e s) as [extra [E _]].
  pose proof (fitsCalls_app k s (step e s) extra E) as Hmono.
  apply stored_step in Hk as [Hs|Hok].
  - specialize (Inv k Hs). lia.
  - unfold completesOk in Hok.
    destruct e as [y|y f|id o]; try discriminate Hok.
    destruct o as [|ok data|data|err]; try discriminate Hok.
    apply andb_true_iff in Hok as [_ Hr].
    destruct (nth_error (calls s) id) as [r|] eqn:Hn; [|discriminate Hr].
    pose proof (fitsCalls_in k s id r Hn Hr). lia.
Qed.

(** X14. Whatever the events, every key of the cache is the key of a FITS
    call that was dispatched: no record is stored for a file that was not
    asked for. *)
Theorem stored_keys_were_requested (evs : list Event) (k : string) :
  get (fitsData (run evs initial)) k <> None ->
  1 <= fitsCalls k (run evs initial).
Proof.
  assert (G : forall s,
             (forall k, get (fitsData s) k <> None -> 1 <= fitsCalls k s) ->
             forall k, get (fitsData (run evs s)) k <> None ->
                       1 <= fitsCalls k (run evs s)).
  { induction evs as [|e evs IH]; intros s Inv; [exact Inv|].
    simpl. fold (run evs (step e s)). apply IH. now apply requested_step. }
  apply G. intros k0 H. now contradiction H.
Qed.

Lemma stored_keys_were_requested_witness :
  1 <= fitsCalls (key "2022" Samples.fileA)
         (run (Samples.browsing2022 ++
               [ToggleItem "2022" Samples.fileA;
                Settle 2 (FitsReply Samples.recordA)]) initial).
Proof.
  apply (stored_keys_were_requested
           (Samples.browsing2022 ++
            [ToggleItem "2022" Samples.fileA;
             Settle 2 (FitsReply Samples.recordA)])
           (key "2022" Samples.fileA)).
  vm_compute. discriminate.
Defined.

End AppFacts.
